(** * mockgen/cli: the command-line driver of the mock generator

    A shallow embedding of [src/mockgen/cli/cli.go].  The file holds one
    interesting function, [main]: it reads the parsed command line, picks
    one of two extractors, and hands the extracted package to the
    generator.  Everything [main] calls lives in other packages
    ([generator], [model], [flag], [log], [os]), so a run is modelled as
    the ordered trace of the calls it makes, each recorded with its
    arguments and with the answer it got, plus the way the process ends.

    Two things are taken for granted: [flag.Parse()] accepted the command
    line (otherwise the process is gone before line 64), and every call
    to the outside returns.  So the runs that end inside [flag.Parse()],
    which on a command line it rejects, or on [-h], calls [usage] through
    the hook of line 61 and exits by itself, and the runs that end in a
    panic of a called function, are not among the runs of [main] below:
    what is proved is proved of the runs that get past line 62 and whose
    calls return. *)

From Stdlib Require Import String Ascii List Bool Arith ZArith Lia.
Import ListNotations.

Local Open Scope string_scope.
Local Open Scope list_scope.

Local Infix "+++" := String.append (at level 60, right associativity).

(** ** Go values *)

(** A Go [error]: [None] is [nil], [Some msg] is an error whose [Error()]
    text (and [%v] rendering) is [msg]. *)
Definition error := option string.

(** A Go pointer [*T] that may be [nil]. *)
Definition ptr (T : Type) := option T.

Definition nl : string := String (ascii_of_nat 10) EmptyString.
Definition tab : string := String (ascii_of_nat 9) EmptyString.

(** [strings.Split(s, sep)] for a one-byte separator, the only way the
    driver calls it (line 97, with [","]): the substrings of [s] between
    the separators, so always one piece more than there are separators;
    a string without separator comes back as the single piece. *)
Fixpoint Split_byte (sep : ascii) (s : string) : list string :=
  match s with
  | EmptyString => [EmptyString]
  | String ch rest =>
      if Ascii.eqb ch sep then EmptyString :: Split_byte sep rest
      else match Split_byte sep rest with
           | [] => [String ch EmptyString]
           | piece :: pieces => String ch piece :: pieces
           end
  end.

Definition comma : ascii := ","%char.

(** [strings.Join(pieces, sep)], used to state what [Split_byte] returns. *)
Fixpoint Join_byte (sep : ascii) (pieces : list string) : string :=
  match pieces with
  | [] => EmptyString
  | [p] => p
  | p :: rest => p +++ String sep (Join_byte sep rest)
  end.

Fixpoint count_byte (sep : ascii) (s : string) : nat :=
  match s with
  | EmptyString => 0
  | String ch rest => (if Ascii.eqb ch sep then 1 else 0) + count_byte sep rest
  end.

(** ** The command line *)

(** The state of package [flag] after [flag.Parse()] (line 62): one field
    per flag variable of lines 41-57, and the non-flag arguments. *)
Record CommandLine := {
  source : string;
  destination : string;
  mockNames : string;
  packageOut : string;
  selfPackage : string;
  writeCmdComment : bool;
  writePkgComment : bool;
  writeSourceComment : bool;
  writeGenerateDirective : bool;
  copyrightFile : string;
  typed : bool;
  imports : string;
  auxFiles : string;
  excludeInterfaces : string;
  debugParser : bool;
  showVersion : bool;
  args : list string
}.

(** The default value of every flag (second argument of [flag.String] /
    [flag.Bool]) and no non-flag argument: the command line of a bare
    [mockgen]. *)
Definition default_CommandLine : CommandLine :=
  {| source := ""; destination := ""; mockNames := ""; packageOut := "";
     selfPackage := ""; writeCmdComment := true; writePkgComment := true;
     writeSourceComment := true; writeGenerateDirective := false;
     copyrightFile := ""; typed := false; imports := ""; auxFiles := "";
     excludeInterfaces := ""; debugParser := false; showVersion := false;
     args := [] |}.

(** [flag.NArg()] and [flag.Arg(i)]; the latter is the empty string when
    there is no [i]-th argument. *)
Definition NArg (c : CommandLine) : nat := length (args c).
Definition Arg (c : CommandLine) (i : nat) : string := nth i (args c) "".

(** [generator.Flags], with the fields the composite literal of lines
    64-79 sets. *)
Record Flags := {
  Source : string;
  Destination : string;
  MockNames : string;
  PackageOut : string;
  SelfPackage : string;
  WriteCmdComment : bool;
  WritePkgComment : bool;
  WriteSourceComment : bool;
  WriteGenerateDirective : bool;
  CopyrightFile : string;
  Typed : bool;
  Imports : string;
  AuxFiles : string;
  ExcludeInterfaces : string
}.

Definition usageText : string :=
  "mockgen has two modes of operation: source and reflect." +++ nl +++
  nl +++
  "Source mode generates mock interfaces from a source file." +++ nl +++
  "It is enabled by using the -source flag. Other flags that" +++ nl +++
  "may be useful in this mode are -imports and -aux_files." +++ nl +++
  "Example:" +++ nl +++
  tab +++ "mockgen -source=foo.go [other options]" +++ nl +++
  nl +++
  "Reflect mode generates mock interfaces by building a program" +++ nl +++
  "that uses reflection to understand interfaces. It is enabled" +++ nl +++
  "by passing two non-flag arguments: an import path, and a" +++ nl +++
  "comma-separated list of symbols." +++ nl +++
  "Example:" +++ nl +++
  tab +++ "mockgen database/sql/driver Conn,Driver" +++ nl +++
  nl.

(** How a computation stops before its end: [return] out of [main], or
    [log.Fatal], which prints and calls [os.Exit(1)]. *)
Inductive Exit := Returned | Fatal.

Inductive Res (A : Type) :=
| Val (a : A)
| Halt (x : Exit).
Arguments Val {A} a.
Arguments Halt {A} x.

Section Driver.

(** [model.Package] and [generator.Generator] are declared outside this
    file; the driver only moves their values around. *)
Context {Package Generator : Type}.

(** ** The world outside [main]

    What every function called by [main] answers.  The three strings are
    the package variables of lines 34-38, which the linker may override;
    [zeroGenerator] is the value [new(generator.Generator)] points to.
    [Generate] and [OutputToDestination] are methods of the generator:
    the first returns the generator as it leaves it, the second reads
    it. *)
Record World := {
  version : string;
  commit : string;
  date : string;
  SourceMode : string -> string -> string -> string -> ptr Package * error;
  ReflectMode : string -> list string -> ptr Package * error;
  Getwd : string * error;
  PackageNameOfDir : string -> string * error;
  zeroGenerator : Generator;
  Generate : Generator -> ptr Package -> string -> string -> Flags
             -> Generator * error;
  OutputToDestination : Generator -> string -> error
}.

(** ** Traces *)

Inductive Event :=
| EvStderr (text : string)              (* io.WriteString(os.Stderr, text) *)
| EvPrintDefaults                       (* flag.PrintDefaults() *)
| EvPrintf (text : string)              (* fmt.Printf, the formatted text *)
| EvPrintModuleVersion                  (* generator.PrintModuleVersion() *)
| EvSourceMode (src imps excl aux : string) (res : ptr Package * error)
| EvGetwd (res : string * error)
| EvPackageNameOfDir (dir : string) (res : string * error)
| EvReflectMode (pkgName : string) (ifaces : list string)
                (res : ptr Package * error)
| EvPrint (pkg : ptr Package)           (* pkg.Print(os.Stdout) *)
| EvNewGenerator                        (* new(generator.Generator) *)
| EvGenerate (g : Generator) (pkg : ptr Package) (pkgName arg1 : string)
             (flags : Flags) (res : Generator * error)
| EvOutputToDestination (g : Generator) (dest : string) (res : error)
| EvLogFatal (msg : string).            (* log.Fatal / log.Fatalf *)

(** A computation: the events it performed, in order, and its result. *)
Definition M (A : Type) : Type := list Event * Res A.

Definition ret {A} (a : A) : M A := ([], Val a).

Definition bind {A B} (m : M A) (k : A -> M B) : M B :=
  match m with
  | (t, Val a) => let (t', r) := k a in (t ++ t', r)
  | (t, Halt x) => (t, Halt x)
  end.

Definition emit (e : Event) : M unit := ([e], Val tt).
Definition halt {A} (x : Exit) : M A := ([], Halt x).
Definition when (b : bool) (m : M unit) : M unit := if b then m else ret tt.

End Driver.

Arguments World : clear implicits.
Arguments Event : clear implicits.
Arguments M : clear implicits.

Declare Scope go_scope.
Delimit Scope go_scope with go.
Notation "x <- m ;; k" := (bind m (fun x => k))
  (at level 100, m at next level, right associativity) : go_scope.
Notation "' p <- m ;; k" := (bind m (fun p => k))
  (at level 100, p pattern, m at next level, right associativity) : go_scope.
Notation "m ;; k" := (bind m (fun _ => k))
  (at level 100, right associativity) : go_scope.

Section Main.

Context {Package Generator : Type}.
Abbreviation World := (World Package Generator).
Abbreviation Event := (Event Package Generator).
Abbreviation M := (M Package Generator).

Local Open Scope go_scope.

(** ** Calls to the outside, each leaving its event *)

Definition call_SourceMode (w : World) (src imps excl aux : string)
  : M (ptr Package * error) :=
  let res := SourceMode w src imps excl aux in
  emit (EvSourceMode src imps excl aux res) ;; ret res.

Definition call_ReflectMode (w : World) (pkgName : string)
  (ifaces : list string) : M (ptr Package * error) :=
  let res := ReflectMode w pkgName ifaces in
  emit (EvReflectMode pkgName ifaces res) ;; ret res.

Definition call_Getwd (w : World) : M (string * error) :=
  emit (EvGetwd (Getwd w)) ;; ret (Getwd w).

Definition call_PackageNameOfDir (w : World) (dir : string)
  : M (string * error) :=
  let res := PackageNameOfDir w dir in
  emit (EvPackageNameOfDir dir res) ;; ret res.

Definition call_Generate (w : World) (g : Generator) (pkg : ptr Package)
  (pkgName arg1 : string) (flags : Flags) : M (Generator * error) :=
  let res := Generate w g pkg pkgName arg1 flags in
  emit (EvGenerate g pkg pkgName arg1 flags res) ;; ret res.

Definition call_OutputToDestination (w : World) (g : Generator)
  (dest : string) : M error :=
  let res := OutputToDestination w g dest in
  emit (EvOutputToDestination g dest res) ;; ret res.

Definition new_Generator (w : World) : M Generator :=
  emit EvNewGenerator ;; ret (zeroGenerator w).

(** [log.Fatal(msg)]: the message goes to the logger, the process exits
    with status 1. *)
Definition log_Fatal {A} (msg : string) : M A :=
  ([EvLogFatal msg : Event], Halt Fatal).

(** [return] in [main]. *)
Definition return_ {A} : M A := halt Returned.

(** ** The functions of the file *)

(** Lines 129-135. *)
Definition printVersion (w : World) : M unit :=
  if negb (version w =? "") then
    emit (EvPrintf ("v" +++ version w +++ nl +++
                    "Commit: " +++ commit w +++ nl +++
                    "Date: " +++ date w +++ nl))
  else
    emit EvPrintModuleVersion.

(** Lines 137-140. *)
Definition usage : M unit :=
  emit (EvStderr usageText) ;;
  emit EvPrintDefaults.

(** Lines 64-126, the body of [main] after [flag.Usage = usage] and
    [flag.Parse()] (lines 61-62): [flag.Parse()] has returned, and [c] is
    what it left. *)
Definition main (w : World) (c : CommandLine) : M unit :=
  let flags :=
    {| Source := source c;
       Destination := destination c;
       MockNames := mockNames c;
       PackageOut := packageOut c;
       SelfPackage := selfPackage c;
       WriteCmdComment := writeCmdComment c;
       WritePkgComment := writePkgComment c;
       WriteSourceComment := writeSourceComment c;
       WriteGenerateDirective := writeGenerateDirective c;
       CopyrightFile := copyrightFile c;
       Typed := typed c;
       Imports := imports c;
       AuxFiles := auxFiles c;
       ExcludeInterfaces := excludeInterfaces c |} in
  when (showVersion c) (printVersion w ;; return_) ;;
  (* var pkg, err, packageName: nil, nil and the empty string *)
  '(pkg, err, packageName) <-
    (if negb (source c =? "") then
       '(pkg, err) <- call_SourceMode w (source c) (imports c)
                        (excludeInterfaces c) (auxFiles c) ;;
       ret (pkg, err, "")
     else
       when (negb (NArg c =? 2)%nat)
         (usage ;; log_Fatal "Expected exactly two arguments") ;;
       let packageName := Arg c 0 in
       let interfaces := Split_byte comma (Arg c 1) in
       packageName <-
         (if packageName =? "." then
            '(dir, err) <- call_Getwd w ;;
            match err with
            | Some e => log_Fatal ("Get current directory failed: " +++ e)
            | None => ret tt
            end ;;
            '(packageName, err) <- call_PackageNameOfDir w dir ;;
            match err with
            | Some e => log_Fatal ("Parse package name failed: " +++ e)
            | None => ret tt
            end ;;
            ret packageName
          else ret packageName) ;;
       '(pkg, err) <- call_ReflectMode w packageName interfaces ;;
       ret (pkg, err, packageName)) ;;
  match err with
  | Some e => log_Fatal ("Loading input failed: " +++ e)
  | None => ret tt
  end ;;
  when (debugParser c) (emit (EvPrint pkg) ;; return_) ;;
  g <- new_Generator w ;;
  '(g, err) <- call_Generate w g pkg packageName (Arg c 1) flags ;;
  match err with
  | Some e => log_Fatal ("Failed generating mock: " +++ e)
  | None => ret tt
  end ;;
  err <- call_OutputToDestination w g (destination c) ;;
  match err with
  | Some e => log_Fatal ("Failed output: " +++ e)
  | None => ret tt
  end.

(** The trace of a run and the status the process exits with: 1 after
    [log.Fatal], 0 when [main] returns or reaches its end. *)
Definition trace (w : World) (c : CommandLine) : list Event := fst (main w c).

Definition status (r : Res unit) : Z :=
  match r with
  | Halt Fatal => 1
  | Halt Returned => 0
  | Val _ => 0
  end.

Definition exit_status (w : World) (c : CommandLine) : Z :=
  status (snd (main w c)).

End Main.

(** ** Reading traces *)

Section Traces.

Context {Package Generator : Type}.
Abbreviation Ev := (Event Package Generator).

Definition is_SourceMode (e : Ev) : bool :=
  match e with EvSourceMode _ _ _ _ _ => true | _ => false end.

Definition is_ReflectMode (e : Ev) : bool :=
  match e with EvReflectMode _ _ _ => true | _ => false end.

Definition is_extractor (e : Ev) : bool := is_SourceMode e || is_ReflectMode e.

Definition is_Print (e : Ev) : bool :=
  match e with EvPrint _ => true | _ => false end.

Definition is_NewGenerator (e : Ev) : bool :=
  match e with EvNewGenerator => true | _ => false end.

Definition is_Generate (e : Ev) : bool :=
  match e with EvGenerate _ _ _ _ _ _ => true | _ => false end.

Definition is_Output (e : Ev) : bool :=
  match e with EvOutputToDestination _ _ _ => true | _ => false end.

Definition is_LogFatal (e : Ev) : bool :=
  match e with EvLogFatal _ => true | _ => false end.

(** What an extractor call answered; [None] for any other event. *)
Definition extractor_result (e : Ev) : option (ptr Package * error) :=
  match e with
  | EvSourceMode _ _ _ _ res => Some res
  | EvReflectMode _ _ res => Some res
  | _ => None
  end.

(** The error an event came back with, for the calls that can fail. *)
Definition event_error (e : Ev) : error :=
  match e with
  | EvSourceMode _ _ _ _ (_, err) => err
  | EvReflectMode _ _ (_, err) => err
  | EvGetwd (_, err) => err
  | EvPackageNameOfDir _ (_, err) => err
  | EvGenerate _ _ _ _ _ (_, err) => err
  | EvOutputToDestination _ _ err => err
  | _ => None
  end.

(** How many events of a trace satisfy [p]. *)
Definition calls (p : Ev -> bool) (t : list Ev) : nat := length (filter p t).

End Traces.

(** ** The paths through [main]

    [main] has no loop: a run follows one of a dozen paths.  The three
    relations below list them, with the trace each leaves; [main_Run]
    shows that [main] always follows one of them. *)

Section Paths.

Context {Package Generator : Type}.
Abbreviation World' := (World Package Generator).
Abbreviation Event' := (Event Package Generator).

(** The value of [flags] built at lines 64-79. *)
Definition flags_of (c : CommandLine) : Flags :=
  {| Source := source c;
     Destination := destination c;
     MockNames := mockNames c;
     PackageOut := packageOut c;
     SelfPackage := selfPackage c;
     WriteCmdComment := writeCmdComment c;
     WritePkgComment := writePkgComment c;
     WriteSourceComment := writeSourceComment c;
     WriteGenerateDirective := writeGenerateDirective c;
     CopyrightFile := copyrightFile c;
     Typed := typed c;
     Imports := imports c;
     AuxFiles := auxFiles c;
     ExcludeInterfaces := excludeInterfaces c |}.

(** Lines 86-109: the trace of the extraction block and, unless it died
    there, the values of [pkg], [err] and [packageName] at line 110. *)
Inductive Extraction (w : World') (c : CommandLine)
  : list Event' -> option (ptr Package * error * string) -> Prop :=
| Ex_source pkg err :
    source c <> "" ->
    SourceMode w (source c) (imports c) (excludeInterfaces c) (auxFiles c)
      = (pkg, err) ->
    Extraction w c
      [EvSourceMode (source c) (imports c) (excludeInterfaces c) (auxFiles c)
         (pkg, err)]
      (Some (pkg, err, ""))
| Ex_arguments :
    source c = "" ->
    NArg c <> 2 ->
    Extraction w c
      [EvStderr usageText; EvPrintDefaults;
       EvLogFatal "Expected exactly two arguments"]
      None
| Ex_getwd_failed dir e :
    source c = "" -> NArg c = 2 -> Arg c 0 = "." ->
    Getwd w = (dir, Some e) ->
    Extraction w c
      [EvGetwd (dir, Some e);
       EvLogFatal ("Get current directory failed: " +++ e)]
      None
| Ex_name_failed dir name e :
    source c = "" -> NArg c = 2 -> Arg c 0 = "." ->
    Getwd w = (dir, None) ->
    PackageNameOfDir w dir = (name, Some e) ->
    Extraction w c
      [EvGetwd (dir, None);
       EvPackageNameOfDir dir (name, Some e);
       EvLogFatal ("Parse package name failed: " +++ e)]
      None
| Ex_reflect_here dir name pkg err :
    source c = "" -> NArg c = 2 -> Arg c 0 = "." ->
    Getwd w = (dir, None) ->
    PackageNameOfDir w dir = (name, None) ->
    ReflectMode w name (Split_byte comma (Arg c 1)) = (pkg, err) ->
    Extraction w c
      [EvGetwd (dir, None);
       EvPackageNameOfDir dir (name, None);
       EvReflectMode name (Split_byte comma (Arg c 1)) (pkg, err)]
      (Some (pkg, err, name))
| Ex_reflect pkg err :
    source c = "" -> NArg c = 2 -> Arg c 0 <> "." ->
    ReflectMode w (Arg c 0) (Split_byte comma (Arg c 1)) = (pkg, err) ->
    Extraction w c
      [EvReflectMode (Arg c 0) (Split_byte comma (Arg c 1)) (pkg, err)]
      (Some (pkg, err, Arg c 0)).

(** Lines 110-126, from the values the extraction block left. *)
Inductive Finish (w : World') (c : CommandLine) (pkg : ptr Package)
  (packageName : string) : error -> list Event' -> Res unit -> Prop :=
| Fin_load_failed e :
    Finish w c pkg packageName (Some e)
      [EvLogFatal ("Loading input failed: " +++ e)] (Halt Fatal)
| Fin_debug :
    debugParser c = true ->
    Finish w c pkg packageName None [EvPrint pkg] (Halt Returned)
| Fin_generate_failed g e :
    debugParser c = false ->
    Generate w (zeroGenerator w) pkg packageName (Arg c 1) (flags_of c)
      = (g, Some e) ->
    Finish w c pkg packageName None
      [EvNewGenerator;
       EvGenerate (zeroGenerator w) pkg packageName (Arg c 1) (flags_of c)
         (g, Some e);
       EvLogFatal ("Failed generating mock: " +++ e)]
      (Halt Fatal)
| Fin_output_failed g e :
    debugParser c = false ->
    Generate w (zeroGenerator w) pkg packageName (Arg c 1) (flags_of c)
      = (g, None) ->
    OutputToDestination w g (destination c) = Some e ->
    Finish w c pkg packageName None
      [EvNewGenerator;
       EvGenerate (zeroGenerator w) pkg packageName (Arg c 1) (flags_of c)
         (g, None);
       EvOutputToDestination g (destination c) (Some e);
       EvLogFatal ("Failed output: " +++ e)]
      (Halt Fatal)
| Fin_written g :
    debugParser c = false ->
    Generate w (zeroGenerator w) pkg packageName (Arg c 1) (flags_of c)
      = (g, None) ->
    OutputToDestination w g (destination c) = None ->
    Finish w c pkg packageName None
      [EvNewGenerator;
       EvGenerate (zeroGenerator w) pkg packageName (Arg c 1) (flags_of c)
         (g, None);
       EvOutputToDestination g (destination c) None]
      (Val tt).

(** A whole run. *)
Inductive Run (w : World') (c : CommandLine)
  : list Event' -> Res unit -> Prop :=
| Run_version :
    showVersion c = true ->
    version w <> "" ->
    Run w c
      [EvPrintf ("v" +++ version w +++ nl +++
                 "Commit: " +++ commit w +++ nl +++
                 "Date: " +++ date w +++ nl)]
      (Halt Returned)
| Run_module_version :
    showVersion c = true ->
    version w = "" ->
    Run w c [EvPrintModuleVersion] (Halt Returned)
| Run_not_extracted t :
    showVersion c = false ->
    Extraction w c t None ->
    Run w c t (Halt Fatal)
| Run_extracted t1 t2 pkg err packageName r :
    showVersion c = false ->
    Extraction w c t1 (Some (pkg, err, packageName)) ->
    Finish w c pkg packageName err t2 r ->
    Run w c (t1 ++ t2) r.

(** The extractor calls of a run, read off lines 81-108: what
    [SourceMode_calls_trace] and [ReflectMode_calls_trace] show the
    trace to hold. *)
Definition SourceMode_calls (w : World') (c : CommandLine) : list Event' :=
  if showVersion c then []
  else if negb (source c =? "") then
    [EvSourceMode (source c) (imports c) (excludeInterfaces c) (auxFiles c)
       (SourceMode w (source c) (imports c) (excludeInterfaces c)
          (auxFiles c))]
  else [].

Definition ReflectMode_calls (w : World') (c : CommandLine) : list Event' :=
  let symbols := Split_byte comma (Arg c 1) in
  if showVersion c then []
  else if negb (source c =? "") then []
  else if negb (NArg c =? 2)%nat then []
  else if Arg c 0 =? "." then
    match Getwd w with
    | (dir, None) =>
        match PackageNameOfDir w dir with
        | (name, None) =>
            [EvReflectMode name symbols (ReflectMode w name symbols)]
        | (_, Some _) => []
        end
    | (_, Some _) => []
    end
  else [EvReflectMode (Arg c 0) symbols (ReflectMode w (Arg c 0) symbols)].

End Paths.

(** ** What [log.Fatalf] is told *)

Section Messages.

Context {Package Generator : Type}.

(** The text each call that can fail is reported with (the format strings
    of lines 101, 105, 111, 122 and 125, up to their [%v]). *)
Definition failure_prefix (e : Event Package Generator) : string :=
  match e with
  | EvSourceMode _ _ _ _ _ => "Loading input failed: "
  | EvReflectMode _ _ _ => "Loading input failed: "
  | EvGetwd _ => "Get current directory failed: "
  | EvPackageNameOfDir _ _ => "Parse package name failed: "
  | EvGenerate _ _ _ _ _ _ => "Failed generating mock: "
  | EvOutputToDestination _ _ _ => "Failed output: "
  | _ => ""
  end.

End Messages.

(** The byte [fmt.Printf] ends a line with. *)
Definition newline : ascii := ascii_of_nat 10.

(** ** Command lines that differ in one place *)

Definition with_args (c : CommandLine) (a : list string) : CommandLine :=
  {| source := source c; destination := destination c;
     mockNames := mockNames c; packageOut := packageOut c;
     selfPackage := selfPackage c; writeCmdComment := writeCmdComment c;
     writePkgComment := writePkgComment c;
     writeSourceComment := writeSourceComment c;
     writeGenerateDirective := writeGenerateDirective c;
     copyrightFile := copyrightFile c; typed := typed c;
     imports := imports c; auxFiles := auxFiles c;
     excludeInterfaces := excludeInterfaces c;
     debugParser := debugParser c; showVersion := showVersion c;
     args := a |}.

Definition with_excludeInterfaces (c : CommandLine) (x : string)
  : CommandLine :=
  {| source := source c; destination := destination c;
     mockNames := mockNames c; packageOut := packageOut c;
     selfPackage := selfPackage c; writeCmdComment := writeCmdComment c;
     writePkgComment := writePkgComment c;
     writeSourceComment := writeSourceComment c;
     writeGenerateDirective := writeGenerateDirective c;
     copyrightFile := copyrightFile c; typed := typed c;
     imports := imports c; auxFiles := auxFiles c;
     excludeInterfaces := x;
     debugParser := debugParser c; showVersion := showVersion c;
     args := args c |}.

(** ** A small world to run [main] in

    A package is stood for by its name and a generator by the lines it
    holds.  [foo.go] is the one source file that exists, [broken] the one
    package reflection fails on, and a package named [bad] is the one the
    generator rejects. *)
Module Demo.

Definition Pkg := string.
Definition Gen := list string.

Definition world_at (cwd : string * error) (disk : error)
  : World Pkg Gen :=
  {| version := "";
     commit := "none";
     date := "unknown";
     SourceMode := fun src _ _ _ =>
       if src =? "foo.go" then (Some "foo", None)
       else (None, Some ("open " +++ src +++ ": no such file"));
     ReflectMode := fun name _ =>
       if name =? "broken" then (None, Some "exit status 1")
       else (Some name, None);
     Getwd := cwd;
     PackageNameOfDir := fun dir =>
       if dir =? "/home/u/proj" then ("example.com/proj", None)
       else ("", Some "go source file not found");
     zeroGenerator := [];
     Generate := fun g pkg _ _ _ =>
       match pkg with
       | Some "bad" => (g, Some "duplicate mock name")
       | Some name => (("mock_" +++ name) :: g, None)
       | None => (g, Some "nil package")
       end;
     OutputToDestination := fun _ _ => disk |}.

Definition world : World Pkg Gen := world_at ("/home/u/proj", None) None.

(** [mockgen] *)
Definition bare : CommandLine := default_CommandLine.

(** [mockgen -version] *)
Definition asks_version : CommandLine :=
  {| source := ""; destination := ""; mockNames := ""; packageOut := "";
     selfPackage := ""; writeCmdComment := true; writePkgComment := true;
     writeSourceComment := true; writeGenerateDirective := false;
     copyrightFile := ""; typed := false; imports := ""; auxFiles := "";
     excludeInterfaces := ""; debugParser := false; showVersion := true;
     args := [] |}.

(** [mockgen -source=foo.go -destination=mock_foo.go -package=mocks
      -self_package=example.com/foo -mock_names=A=FakeA -typed
      -write_command_comment=false -write_package_comment=false
      -write_source_comment=false -write_generate_directive
      -copyright_file=LICENSE -imports=x=example.com/x -aux_files=a=a.go
      -exclude_interfaces=C] *)
Definition from_source : CommandLine :=
  {| source := "foo.go"; destination := "mock_foo.go"; mockNames := "A=FakeA";
     packageOut := "mocks"; selfPackage := "example.com/foo";
     writeCmdComment := false; writePkgComment := false;
     writeSourceComment := false; writeGenerateDirective := true;
     copyrightFile := "LICENSE"; typed := true; imports := "x=example.com/x";
     auxFiles := "a=a.go"; excludeInterfaces := "C";
     debugParser := false; showVersion := false;
     args := [] |}.

(** [mockgen -source=foo.go -debug_parser] *)
Definition debug_source : CommandLine :=
  {| source := "foo.go"; destination := ""; mockNames := ""; packageOut := "";
     selfPackage := ""; writeCmdComment := true; writePkgComment := true;
     writeSourceComment := true; writeGenerateDirective := false;
     copyrightFile := ""; typed := false; imports := ""; auxFiles := "";
     excludeInterfaces := ""; debugParser := true; showVersion := false;
     args := [] |}.

(** [mockgen -source=nope.go -debug_parser] *)
Definition debug_missing : CommandLine :=
  {| source := "nope.go"; destination := ""; mockNames := ""; packageOut := "";
     selfPackage := ""; writeCmdComment := true; writePkgComment := true;
     writeSourceComment := true; writeGenerateDirective := false;
     copyrightFile := ""; typed := false; imports := ""; auxFiles := "";
     excludeInterfaces := ""; debugParser := true; showVersion := false;
     args := [] |}.

(** [mockgen database/sql/driver Conn,Driver] *)
Definition reflect_driver : CommandLine :=
  with_args default_CommandLine ["database/sql/driver"; "Conn,Driver"].

(** [mockgen . Conn,Driver] *)
Definition reflect_here : CommandLine :=
  with_args default_CommandLine ["."; "Conn,Driver"].

(** The same world for a released binary, with the three strings linked
    in. *)
Definition released : World Pkg Gen :=
  {| version := "0.4.0";
     commit := "5b455625";
     date := "2023-11-10";
     SourceMode := SourceMode world;
     ReflectMode := ReflectMode world;
     Getwd := Getwd world;
     PackageNameOfDir := PackageNameOfDir world;
     zeroGenerator := zeroGenerator world;
     Generate := Generate world;
     OutputToDestination := OutputToDestination world |}.

(** [mockgen -source=foo.go -debug_parser -destination=out.go -package=p
      -self_package=example.com/p -mock_names=A=B -typed
      -write_command_comment=false -write_package_comment=false
      -write_source_comment=false -write_generate_directive
      -copyright_file=LICENSE] *)
Definition debug_source_loud : CommandLine :=
  {| source := "foo.go"; destination := "out.go"; mockNames := "A=B";
     packageOut := "p"; selfPackage := "example.com/p";
     writeCmdComment := false; writePkgComment := false;
     writeSourceComment := false; writeGenerateDirective := true;
     copyrightFile := "LICENSE"; typed := true; imports := ""; auxFiles := "";
     excludeInterfaces := ""; debugParser := true; showVersion := false;
     args := [] |}.

(** A world whose source extractor answers with no package and no
    error. *)
Definition hollow : World Pkg Gen :=
  {| version := version world;
     commit := commit world;
     date := date world;
     SourceMode := fun _ _ _ _ => (None, None);
     ReflectMode := ReflectMode world;
     Getwd := Getwd world;
     PackageNameOfDir := PackageNameOfDir world;
     zeroGenerator := zeroGenerator world;
     Generate := Generate world;
     OutputToDestination := OutputToDestination world |}.

(** [mockgen io Reader,,Writer,] *)
Definition reflect_gaps : CommandLine :=
  with_args default_CommandLine ["io"; "Reader,,Writer,"].

End Demo.

Abbreviation DemoEvent := (Event Demo.Pkg Demo.Gen).

(** * Properties *)

(** ** [strings.Split] on one byte *)

Lemma Split_byte_nonempty (sep : ascii) (s : string) :
  Split_byte sep s <> [].
Proof.
  destruct s as [|ch rest]; simpl; [discriminate|].
  destruct (Ascii.eqb ch sep); [discriminate|].
  destruct (Split_byte sep rest); discriminate.
Qed.

(** One piece more than there are separators. *)
Lemma Split_byte_length (sep : ascii) (s : string) :
  length (Split_byte sep s) = S (count_byte sep s).
Proof.
  induction s as [|ch rest IH]; simpl; [reflexivity|].
  destruct (Ascii.eqb ch sep); simpl.
  - now rewrite IH.
  - destruct (Split_byte sep rest) as [|p ps] eqn:E.
    + now destruct (Split_byte_nonempty sep rest).
    + simpl in *. exact IH.
Qed.

(** No piece holds a separator. *)
Lemma Split_byte_pieces (sep : ascii) (s piece : string) :
  In piece (Split_byte sep s) -> count_byte sep piece = 0.
Proof.
  revert piece.
  induction s as [|ch rest IH]; simpl; intros piece H.
  - destruct H as [<-|[]]. reflexivity.
  - destruct (Ascii.eqb ch sep) eqn:E.
    + destruct H as [<-|H]; [reflexivity|auto].
    + destruct (Split_byte sep rest) as [|p ps].
      * destruct H as [<-|[]]. simpl. now rewrite E.
      * destruct H as [<-|H].
        -- simpl. rewrite E. apply IH. now left.
        -- apply IH. now right.
Qed.

(** Joining the pieces with the separator gives the string back. *)
Lemma Join_Split_byte (sep : ascii) (s : string) :
  Join_byte sep (Split_byte sep s) = s.
Proof.
  induction s as [|ch rest IH]; simpl; [reflexivity|].
  destruct (Ascii.eqb ch sep) eqn:E.
  - apply Ascii.eqb_eq in E. subst ch.
    destruct (Split_byte sep rest) as [|p ps] eqn:S.
    + now destruct (Split_byte_nonempty sep rest).
    + simpl in *. now rewrite IH.
  - destruct (Split_byte sep rest) as [|p ps] eqn:S.
    + now destruct (Split_byte_nonempty sep rest).
    + destruct ps; simpl in *; now rewrite <- IH.
Qed.

Example Split_byte_symbols :
  Split_byte comma "Conn,Driver" = ["Conn"; "Driver"]
  /\ Split_byte comma "Conn" = ["Conn"]
  /\ Split_byte comma "" = [""]
  /\ Split_byte comma "a,,b," = ["a"; ""; "b"; ""].
Proof. repeat split. Qed.

(** ** Every run follows one of the listed paths *)

(** Splits on one decision of [main]: a flag, a comparison, or what a
    call answered. *)
Ltac branch :=
  match goal with
  | |- context [showVersion ?c] => destruct (showVersion c) eqn:?
  | |- context [String.eqb ?a ?b] => destruct (String.eqb_spec a b)
  | |- context [Nat.eqb ?a ?b] => destruct (Nat.eqb_spec a b)
  | |- context [SourceMode ?w ?a ?b ?x ?d] =>
      destruct (SourceMode w a b x d) as [? [?|]] eqn:?
  | |- context [Getwd ?w] => destruct (Getwd w) as [? [?|]] eqn:?
  | |- context [PackageNameOfDir ?w ?d] =>
      destruct (PackageNameOfDir w d) as [? [?|]] eqn:?
  | |- context [ReflectMode ?w ?p ?i] =>
      destruct (ReflectMode w p i) as [? [?|]] eqn:?
  | |- context [debugParser ?c] => destruct (debugParser c) eqn:?
  | |- context [Generate ?w ?g ?p ?n ?o ?f] =>
      destruct (Generate w g p n o f) as [? [?|]] eqn:?
  | |- context [OutputToDestination ?w ?g ?d] =>
      destruct (OutputToDestination w g d) as [?|] eqn:?
  end.

Ltac run_main :=
  unfold main, printVersion, usage, call_SourceMode, call_ReflectMode,
    call_Getwd, call_PackageNameOfDir, call_Generate,
    call_OutputToDestination, new_Generator, log_Fatal, return_, when,
    emit, halt, ret, bind;
  repeat (branch; cbn [fst snd app negb]).

Section Run.

Context {Package Generator : Type}.
Abbreviation World_ := (World Package Generator).

Lemma Run_split (w : World_) (c : CommandLine) t t1 t2 pkg err name r :
  showVersion c = false ->
  Extraction w c t1 (Some (pkg, err, name)) ->
  Finish w c pkg name err t2 r ->
  t = t1 ++ t2 ->
  Run w c t r.
Proof. intros V E F ->. exact (Run_extracted w c t1 t2 pkg err name r V E F). Qed.

Lemma main_Run (w : World_) (c : CommandLine) :
  Run w c (fst (main w c)) (snd (main w c)).
Proof.
  run_main.
  all: try (solve [ now apply Run_version | now apply Run_module_version ]).
  all: try (apply Run_not_extracted;
            [assumption | solve [econstructor; eassumption]]).
  all: eapply Run_split;
    [ assumption
    | solve [econstructor; eassumption]
    | solve [econstructor; eassumption]
    | reflexivity ].
Qed.

End Run.

(** ** Tactics for reasoning along the paths *)

(** Replaces the trace and result of [main w c] by those of one path. *)
Ltac along_paths w c :=
  unfold exit_status, trace;
  generalize (main_Run w c);
  generalize (fst (main w c)), (snd (main w c));
  let t := fresh "t" in
  let r := fresh "r" in
  let HR := fresh "HR" in
  intros t r HR;
  destruct HR as [V NV|V NV|? V E|? ? ? ? ? ? V E F];
  [ | | inversion E; subst; clear E
      | inversion E; subst; clear E; inversion F; subst; clear F ].

(** Goes through the members of a concrete trace. *)
Ltac members H :=
  cbn [In app] in H;
  repeat match type of H with
         | _ \/ _ => destruct H as [H|H]
         | False => destruct H
         end.

(** Closes a goal by the facts of the path at hand. *)
Ltac settle :=
  cbn [calls filter length app is_SourceMode is_ReflectMode is_extractor
       is_Print is_NewGenerator is_Generate is_Output is_LogFatal orb
       extractor_result event_error status fst snd] in *;
  try solve [ reflexivity | discriminate | congruence | lia
            | intuition (try discriminate; try congruence; try lia) ].

(** Exhibits a member of a concrete trace for a goal [exists e, In e t /\ _],
    trying the members in order. *)
Ltac member_at n :=
  lazymatch n with
  | O => left; reflexivity
  | S ?m => right; member_at m
  end.

Ltac exhibit_at n :=
  solve [eexists; split; [cbn [In app]; member_at n | settle; auto]].

Ltac exhibit :=
  first [ exhibit_at 0 | exhibit_at 1 | exhibit_at 2 | exhibit_at 3
        | exhibit_at 4 | exhibit_at 5 | exhibit_at 6 ].

(** Exhibits the prefix of a concrete trace for a goal
    [exists pre, t = pre ++ _ /\ _]. *)
Ltac prefix_of k :=
  first [ solve [exists (@nil _); split; [reflexivity | k]]
        | solve [eexists [_]; split; [reflexivity | k]]
        | solve [eexists [_; _]; split; [reflexivity | k]]
        | solve [eexists [_; _; _]; split; [reflexivity | k]]
        | solve [eexists [_; _; _; _]; split; [reflexivity | k]] ].

Ltac prefix_only :=
  first [ solve [exists (@nil _); reflexivity]
        | solve [eexists [_]; reflexivity]
        | solve [eexists [_; _]; reflexivity]
        | solve [eexists [_; _; _]; reflexivity]
        | solve [eexists [_; _; _; _]; reflexivity]
        | solve [eexists [_; _; _; _; _]; reflexivity] ].

Section DriverProperties.

Context {Package Generator : Type}.
Abbreviation World'' := (World Package Generator).

(** C8. With [-version] set, the run prints the version (the linked-in
    one when there is one, the module's otherwise), returns with status 0
    and does nothing else: no extractor, no dump, no generator, no output,
    whatever [-source] and the non-flag arguments are. *)
Theorem version_preempts (w : World'') (c : CommandLine) :
  showVersion c = true ->
  trace w c = fst (printVersion w)
  /\ (version w <> "" ->
      trace w c = [EvPrintf ("v" +++ version w +++ nl +++
                             "Commit: " +++ commit w +++ nl +++
                             "Date: " +++ date w +++ nl)])
  /\ (version w = "" -> trace w c = [EvPrintModuleVersion])
  /\ snd (main w c) = Halt Returned
  /\ exit_status w c = 0%Z
  /\ calls is_extractor (trace w c) = 0
  /\ calls is_Print (trace w c) = 0
  /\ calls is_NewGenerator (trace w c) = 0
  /\ calls is_Generate (trace w c) = 0
  /\ calls is_Output (trace w c) = 0.
Proof.
  intro Hv. revert Hv. along_paths w c; intro Hv; try congruence.
  - unfold printVersion. destruct (String.eqb_spec (version w) ""); [easy|].
    repeat split; settle.
  - unfold printVersion. rewrite NV. repeat split; settle.
Qed.

(** C1 (as the code has it).  A run calls at most one extractor, never
    both.  With a non-empty [-source], [ReflectMode] is never called and
    [SourceMode] is called exactly once unless [-version] pre-empts the
    run.  With an empty [-source], [SourceMode] is never called, and
    [ReflectMode] is called exactly once precisely when [-version] is
    unset, there are exactly two non-flag arguments and, for the locator
    ["."], the working directory and its package name resolve; otherwise
    no extractor is called at all.  Both extractors answer with the same
    type, a [Package] pointer and an error, and a package handed to
    [Generate] is the one an extractor of this run returned without
    error. *)
Theorem one_extractor_at_most (w : World'') (c : CommandLine) :
  calls is_extractor (trace w c) <= 1
  /\ (source c <> "" ->
      calls is_ReflectMode (trace w c) = 0
      /\ (showVersion c = false -> calls is_SourceMode (trace w c) = 1))
  /\ (source c = "" ->
      calls is_SourceMode (trace w c) = 0
      /\ (calls is_ReflectMode (trace w c) = 1 <->
          showVersion c = false /\ NArg c = 2
          /\ (Arg c 0 = "." ->
              exists dir name,
                Getwd w = (dir, None)
                /\ PackageNameOfDir w dir = (name, None))))
  /\ (forall g pkg pn op fl res,
        In (EvGenerate g pkg pn op fl res) (trace w c) ->
        exists e,
          In e (trace w c) /\ is_extractor e = true
          /\ extractor_result e = Some (pkg, None)).
Proof.
  along_paths w c.
  all: repeat match goal with |- _ /\ _ => split end.
  all: try solve [settle].
  all: try solve [intros;
                  match goal with
                  | Hin : In _ _ |- _ =>
                      members Hin;
                      first [discriminate Hin | inversion Hin; subst; exhibit]
                  end].
  all: intros _; split; [settle|]; split;
    [ intro K; settle; repeat split; try assumption; intros _; eauto
    | intros (_ & _ & K);
      first [ reflexivity
            | congruence
            | destruct (K ltac:(assumption)) as (? & ? & G & P);
              congruence ] ].
Qed.

(** C2. With [-debug_parser] set, the generator is never constructed,
    [Generate] is never called and nothing is written to the output
    destination.  Extraction runs first: when the extractor returns a
    package without error, the next and last thing the run does is dump
    that package, and it returns with status 0; when the extractor returns
    an error, the run ends in [log.Fatalf] with status 1 and nothing is
    dumped.  A dump only ever follows a successful extraction. *)
Theorem debug_parser_dumps_only (w : World'') (c : CommandLine) :
  debugParser c = true ->
  calls is_NewGenerator (trace w c) = 0
  /\ calls is_Generate (trace w c) = 0
  /\ calls is_Output (trace w c) = 0
  /\ (forall x pkg,
        In x (trace w c) -> extractor_result x = Some (pkg, None) ->
        exists pre,
          trace w c = pre ++ [x; EvPrint pkg]
          /\ calls is_Print pre = 0
          /\ snd (main w c) = Halt Returned
          /\ exit_status w c = 0%Z)
  /\ (forall x pkg err,
        In x (trace w c) -> extractor_result x = Some (pkg, Some err) ->
        exists pre,
          trace w c
            = pre ++ [x; EvLogFatal ("Loading input failed: " +++ err)]
          /\ calls is_Print (trace w c) = 0
          /\ exit_status w c = 1%Z)
  /\ (forall pkg,
        In (EvPrint pkg) (trace w c) ->
        exists x pre,
          trace w c = pre ++ [x; EvPrint pkg]
          /\ extractor_result x = Some (pkg, None))
  /\ (showVersion c = false -> source c <> "" ->
      forall pkg,
        SourceMode w (source c) (imports c) (excludeInterfaces c)
          (auxFiles c) = (pkg, None) ->
        trace w c
          = [EvSourceMode (source c) (imports c) (excludeInterfaces c)
               (auxFiles c) (pkg, None);
             EvPrint pkg]).
Proof.
  intro Hd. revert Hd. along_paths w c; intro Hd; try congruence.
  all: repeat match goal with |- _ /\ _ => split end.
  all: try solve [settle].
  all: try solve [intros;
                  match goal with
                  | Hin : In _ _ |- _ =>
                      members Hin; subst; settle;
                      first [ discriminate
                            | match goal with
                              | K : Some _ = Some _ |- _ =>
                                  inversion K; subst
                              end;
                              prefix_of ltac:(settle; auto)
                            | inversion Hin; subst;
                              eexists; prefix_of ltac:(reflexivity) ]
                  end].
Qed.

(** C3. In reflect mode (empty [-source], the run not pre-empted by
    [-version]) the run prints the usage and dies with status 1, before
    any extractor, unless there are exactly two non-flag arguments.  With
    exactly two, [ReflectMode] is only ever called with the second one
    split on commas as its symbol list, and with the first one as its
    package locator (the locator ["."] apart, which is resolved first);
    any other locator makes that call the first thing the run does. *)
Theorem reflect_mode_arguments (w : World'') (c : CommandLine) :
  showVersion c = false ->
  source c = "" ->
  (NArg c <> 2 ->
   trace w c = [EvStderr usageText; EvPrintDefaults;
                EvLogFatal "Expected exactly two arguments"]
   /\ exit_status w c = 1%Z
   /\ calls is_extractor (trace w c) = 0)
  /\ (forall a0 a1,
        args c = [a0; a1] ->
        (forall p l res,
            In (EvReflectMode p l res) (trace w c) ->
            l = Split_byte comma a1 /\ (a0 <> "." -> p = a0))
        /\ (a0 <> "." ->
            exists rest,
              trace w c
                = EvReflectMode a0 (Split_byte comma a1)
                    (ReflectMode w a0 (Split_byte comma a1)) :: rest)
        /\ ~ In (EvLogFatal "Expected exactly two arguments") (trace w c)).
Proof.
  intros Hv Hs. revert Hv Hs.
  along_paths w c; intros Hv Hs; try congruence.
  all: split; [ intro Hn; try congruence; repeat split; settle | ].
  all: intros a0 a1 Ha.
  all: assert (A0 : Arg c 0 = a0) by (unfold Arg; now rewrite Ha).
  all: assert (A1 : Arg c 1 = a1) by (unfold Arg; now rewrite Ha).
  all: assert (N : NArg c = 2) by (unfold NArg; now rewrite Ha).
  all: try congruence.
  all: rewrite ?A0, ?A1 in *.
  all: repeat match goal with |- _ /\ _ => split end.
  all: try solve [intros p l res Hin; members Hin;
                  first [ discriminate Hin
                        | inversion Hin; subst; split; congruence ]].
  all: try solve [intros Hin; members Hin; cbn in Hin; discriminate Hin].
  all: try solve [intro; congruence].
  all: try solve [intros _; eexists; cbn [app];
                  match goal with
                  | K : ReflectMode _ _ _ = _ |- _ => rewrite K
                  end; reflexivity].
Qed.

(** C4. Every failure ends the run at once with status 1 and without a
    completed write: a call that comes back with an error is followed by
    [log.Fatalf] and nothing else, and whatever reaches [log.Fatal] exits
    with status 1.  After an extractor error the generator is not even
    constructed, so [Generate] and [OutputToDestination] are never called;
    after a [Generate] error [OutputToDestination] is never called: it is
    only ever called right after [Generate] returned without error, on the
    generator [Generate] left.  A run that exits with status 1 has no
    successful call of [OutputToDestination]. *)
Theorem failure_is_fatal (w : World'') (c : CommandLine) :
  (forall x err,
      In x (trace w c) -> event_error x = Some err ->
      exit_status w c = 1%Z
      /\ exists msg pre, trace w c = pre ++ [x; EvLogFatal msg])
  /\ (forall msg, In (EvLogFatal msg) (trace w c) -> exit_status w c = 1%Z)
  /\ (exit_status w c = 1%Z <-> calls is_LogFatal (trace w c) = 1)
  /\ (forall x pkg err,
        In x (trace w c) -> extractor_result x = Some (pkg, Some err) ->
        calls is_NewGenerator (trace w c) = 0
        /\ calls is_Generate (trace w c) = 0
        /\ calls is_Output (trace w c) = 0)
  /\ (forall g pkg pn op fl g' err,
        In (EvGenerate g pkg pn op fl (g', Some err)) (trace w c) ->
        calls is_Output (trace w c) = 0)
  /\ (forall g dest res,
        In (EvOutputToDestination g dest res) (trace w c) ->
        exists g0 pkg pn op fl post pre,
          trace w c
            = pre ++ EvGenerate g0 pkg pn op fl (g, None)
                  :: EvOutputToDestination g dest res :: post)
  /\ (exit_status w c = 1%Z ->
      forall g dest, ~ In (EvOutputToDestination g dest None) (trace w c))
  /\ (exit_status w c <> 1%Z -> exit_status w c = 0%Z
      /\ forall x, In x (trace w c) -> event_error x = None).
Proof.
  along_paths w c.
  all: repeat match goal with |- _ /\ _ => split end.
  all: try solve [settle].
  all: try solve [intros;
                  match goal with
                  | Hin : In _ _ |- _ =>
                      members Hin;
                      first [ discriminate Hin
                            | inversion Hin; subst; solve [settle]
                            | inversion Hin; subst;
                              do 6 eexists; prefix_only
                            | subst; settle;
                              first [ discriminate
                                    | split;
                                      [reflexivity | eexists; prefix_only] ] ]
                  end].
  all: try solve [intros Hs g' dest Hin; members Hin;
                  first [discriminate Hin | discriminate Hs]].
  all: intros Hs;
    first [ now destruct Hs
          | split; [reflexivity|];
            intros x Hin; members Hin; subst; reflexivity ].
Qed.

(** The extractor calls of a run are those read off the code. *)
Lemma SourceMode_calls_trace (w : World'') (c : CommandLine) :
  filter is_SourceMode (trace w c) = SourceMode_calls w c.
Proof.
  unfold SourceMode_calls. along_paths w c.
  all: rewrite V; cbn [filter app is_SourceMode]; try reflexivity.
  all: try (destruct (String.eqb_spec (source c) ""); [|congruence]).
  all: try (destruct (String.eqb_spec (source c) ""); [congruence|]).
  all: cbn [negb]; congruence.
Qed.

Lemma ReflectMode_calls_trace (w : World'') (c : CommandLine) :
  filter is_ReflectMode (trace w c) = ReflectMode_calls w c.
Proof.
  unfold ReflectMode_calls. along_paths w c.
  all: rewrite V; cbn [filter app is_ReflectMode]; try reflexivity.
  all: repeat match goal with
         | K : ?a = ?b |- context [String.eqb ?a ?b] =>
             rewrite (proj2 (String.eqb_eq a b) K)
         | K : ?a <> ?b |- context [String.eqb ?a ?b] =>
             rewrite (proj2 (String.eqb_neq a b) K)
         | K : ?a = ?b |- context [Nat.eqb ?a ?b] =>
             rewrite (proj2 (Nat.eqb_eq a b) K)
         | K : ?a <> ?b |- context [Nat.eqb ?a ?b] =>
             rewrite (proj2 (Nat.eqb_neq a b) K)
         | K : Getwd _ = _ |- _ => rewrite K
         | K : PackageNameOfDir _ _ = _ |- _ => rewrite K
         | K : ReflectMode _ _ _ = _ |- _ => rewrite K
         end.
  all: reflexivity.
Qed.

(** C5. [SourceMode] is only ever called with the values of [-source],
    [-imports], [-exclude_interfaces] and [-aux_files], in this order and
    as they stand; in source mode (non-empty [-source], the run not
    pre-empted by [-version]) that call is the first thing the run does.
    The exclusion list never reaches [ReflectMode]: a call of
    [ReflectMode] takes the package locator and the symbol list alone, and
    whether and how it is called does not depend on
    [-exclude_interfaces]. *)
Theorem source_mode_arguments (w : World'') (c : CommandLine) :
  (forall a b x d res,
      In (EvSourceMode a b x d res) (trace w c) ->
      a = source c /\ b = imports c /\ x = excludeInterfaces c
      /\ d = auxFiles c /\ res = SourceMode w a b x d)
  /\ (showVersion c = false -> source c <> "" ->
      exists rest,
        trace w c
          = EvSourceMode (source c) (imports c) (excludeInterfaces c)
              (auxFiles c)
              (SourceMode w (source c) (imports c) (excludeInterfaces c)
                 (auxFiles c)) :: rest)
  /\ (forall x,
        filter is_ReflectMode (trace w (with_excludeInterfaces c x))
        = filter is_ReflectMode (trace w c))
  /\ (forall p l res,
        In (EvReflectMode p l res) (trace w c) ->
        l = Split_byte comma (Arg c 1)
        /\ (p = Arg c 0
            \/ exists dir, Arg c 0 = "."
                 /\ PackageNameOfDir w dir = (p, None))).
Proof.
  split; [|split; [|split]].
  - intros a b x d res Hin.
    assert (K : In (EvSourceMode a b x d res)
                  (filter is_SourceMode (trace w c)))
      by (apply filter_In; now split).
    rewrite SourceMode_calls_trace in K. unfold SourceMode_calls in K.
    destruct (showVersion c); [destruct K|].
    destruct (negb (source c =? "")); [|destruct K].
    destruct K as [K|[]]. inversion K; subst. now repeat split.
  - along_paths w c; intros Hv Hs; try congruence.
    all: eexists; cbn [app];
      match goal with
      | K : SourceMode _ _ _ _ _ = _ |- _ => rewrite K
      end; reflexivity.
  - intro x. now rewrite !ReflectMode_calls_trace.
  - intros p l res Hin.
    assert (K : In (EvReflectMode p l res)
                  (filter is_ReflectMode (trace w c)))
      by (apply filter_In; now split).
    rewrite ReflectMode_calls_trace in K. unfold ReflectMode_calls in K.
    destruct (showVersion c); [destruct K|].
    destruct (negb (source c =? "")); [destruct K|].
    destruct (negb (NArg c =? 2)%nat); [destruct K|].
    destruct (String.eqb_spec (Arg c 0) ".") as [D|D].
    + destruct (Getwd w) as [dir [e|]]; [destruct K|].
      destruct (PackageNameOfDir w dir) as [name [e|]] eqn:P; [destruct K|].
      destruct K as [K|[]]. inversion K; subst.
      split; [reflexivity|]. right. now exists dir.
    + destruct K as [K|[]]. inversion K; subst.
      split; [reflexivity|]. now left.
Qed.

(** C6. The [Flags] value that reaches [Generate] carries every flag as
    given: the destination package name, the self-package import path, the
    mock-name overrides, the typed mode, the five header settings (command
    comment, package comment, source comment, generate directive,
    copyright file), and the source, destination, imports, auxiliary-file
    and exclusion strings as well. *)
Theorem flags_conveyed (w : World'') (c : CommandLine)
  g pkg pn op (fl : Flags) res :
  In (EvGenerate g pkg pn op fl res) (trace w c) ->
  PackageOut fl = packageOut c
  /\ SelfPackage fl = selfPackage c
  /\ MockNames fl = mockNames c
  /\ Typed fl = typed c
  /\ WriteCmdComment fl = writeCmdComment c
  /\ WritePkgComment fl = writePkgComment c
  /\ WriteSourceComment fl = writeSourceComment c
  /\ WriteGenerateDirective fl = writeGenerateDirective c
  /\ CopyrightFile fl = copyrightFile c
  /\ Source fl = source c
  /\ Destination fl = destination c
  /\ Imports fl = imports c
  /\ AuxFiles fl = auxFiles c
  /\ ExcludeInterfaces fl = excludeInterfaces c.
Proof.
  revert g pkg pn op fl res.
  along_paths w c; intros g' pkg' pn op fl res Hin; members Hin;
    try discriminate Hin.
  all: inversion Hin; subst; cbn [flags_of]; now repeat split.
Qed.

(** C7. A run that reaches the end of [main] made exactly one extractor
    call, which returned a package without error; it then constructed the
    generator, passed that very package to [Generate] once, and wrote the
    generator [Generate] left to the destination once.  The package
    appears nowhere else in the run: it is neither dumped nor handed to
    anything after [Generate]. *)
Theorem successful_run_lifecycle (w : World'') (c : CommandLine) :
  snd (main w c) = Val tt ->
  exists x pkg pn g pre,
    trace w c
      = pre ++ [x;
                EvNewGenerator;
                EvGenerate (zeroGenerator w) pkg pn (Arg c 1) (flags_of c)
                  (g, None);
                EvOutputToDestination g (destination c) None]
    /\ extractor_result x = Some (pkg, None)
    /\ calls is_extractor pre = 0
    /\ calls is_extractor (trace w c) = 1
    /\ calls is_Generate (trace w c) = 1
    /\ calls is_Output (trace w c) = 1
    /\ calls is_Print (trace w c) = 0
    /\ exit_status w c = 0%Z.
Proof.
  intro Hend. revert Hend.
  along_paths w c; intro Hend; try discriminate Hend.
  all: do 4 eexists; prefix_of ltac:(repeat split).
Qed.

(** C9. In reflect mode with the locator ["."] (empty [-source], the run
    not pre-empted by [-version], two non-flag arguments), the run first
    asks for the working directory and then for the package name of that
    directory, and [ReflectMode] is called with the name that came back:
    its locator is always an answer of [PackageNameOfDir], so it is ["."]
    only if the resolver itself says so.  If either lookup fails the run
    dies with status 1 right there and [ReflectMode] is never called. *)
Theorem dot_locator_resolved (w : World'') (c : CommandLine) (a1 : string) :
  showVersion c = false ->
  source c = "" ->
  args c = ["."; a1] ->
  (forall dir name,
      Getwd w = (dir, None) -> PackageNameOfDir w dir = (name, None) ->
      exists rest,
        trace w c
          = EvGetwd (dir, None)
            :: EvPackageNameOfDir dir (name, None)
            :: EvReflectMode name (Split_byte comma a1)
                 (ReflectMode w name (Split_byte comma a1))
            :: rest)
  /\ (forall p l res,
        In (EvReflectMode p l res) (trace w c) ->
        exists dir,
          Getwd w = (dir, None) /\ PackageNameOfDir w dir = (p, None))
  /\ ((forall dir, fst (PackageNameOfDir w dir) <> ".") ->
      forall l res, ~ In (EvReflectMode "." l res) (trace w c))
  /\ (forall dir e,
        Getwd w = (dir, Some e) ->
        trace w c = [EvGetwd (dir, Some e);
                     EvLogFatal ("Get current directory failed: " +++ e)]
        /\ exit_status w c = 1%Z
        /\ calls is_ReflectMode (trace w c) = 0)
  /\ (forall dir name e,
        Getwd w = (dir, None) -> PackageNameOfDir w dir = (name, Some e) ->
        trace w c = [EvGetwd (dir, None);
                     EvPackageNameOfDir dir (name, Some e);
                     EvLogFatal ("Parse package name failed: " +++ e)]
        /\ exit_status w c = 1%Z
        /\ calls is_ReflectMode (trace w c) = 0).
Proof.
  intros Hv Hs Ha.
  assert (A0 : Arg c 0 = ".") by (unfold Arg; now rewrite Ha).
  assert (A1 : Arg c 1 = a1) by (unfold Arg; now rewrite Ha).
  assert (N : NArg c = 2) by (unfold NArg; now rewrite Ha).
  clear Ha. revert Hv Hs A0 A1 N.
  along_paths w c; intros Hv Hs A0 A1 N; try congruence.
  all: subst a1.
  all: repeat match goal with |- _ /\ _ => split end.
  all: try solve [intros; congruence].
  all: try solve [intros dir' name' G P;
                  assert (dir' = dir) by congruence; subst dir';
                  assert (name' = packageName) by congruence; subst name';
                  eexists; cbn [app];
                  match goal with
                  | K : ReflectMode _ _ _ = _ |- _ => rewrite K
                  end; reflexivity].
  all: try solve [intros p l res Hin; members Hin;
                  first [ discriminate Hin
                        | inversion Hin; subst; eexists; split; eassumption ]].
  all: try solve [intros R l res Hin; members Hin;
                  first [ discriminate Hin
                        | inversion Hin; subst;
                          match goal with
                          | K : PackageNameOfDir _ ?d = _ |- _ =>
                              apply (R d); now rewrite K
                          end ]].
  all: try solve [intros dir' e' G;
                  assert (dir' = dir) by congruence; subst dir';
                  assert (e' = e) by congruence; subst e';
                  repeat split].
  all: try solve [intros dir' name' e' G P;
                  assert (dir' = dir) by congruence; subst dir';
                  assert (name' = name) by congruence; subst name';
                  assert (e' = e) by congruence; subst e';
                  repeat split].
Qed.

Lemma extractor_calls_trace (w : World'') (c : CommandLine) :
  filter is_extractor (trace w c)
  = SourceMode_calls w c ++ ReflectMode_calls w c.
Proof.
  unfold SourceMode_calls, ReflectMode_calls. along_paths w c.
  all: rewrite V;
    cbn [filter app is_extractor is_SourceMode is_ReflectMode orb];
    try reflexivity.
  all: repeat match goal with
         | K : ?a = ?b |- context [String.eqb ?a ?b] =>
             rewrite (proj2 (String.eqb_eq a b) K)
         | K : ?a <> ?b |- context [String.eqb ?a ?b] =>
             rewrite (proj2 (String.eqb_neq a b) K)
         | K : ?a = ?b |- context [Nat.eqb ?a ?b] =>
             rewrite (proj2 (Nat.eqb_eq a b) K)
         | K : ?a <> ?b |- context [Nat.eqb ?a ?b] =>
             rewrite (proj2 (Nat.eqb_neq a b) K)
         | K : Getwd _ = _ |- _ => rewrite K
         | K : PackageNameOfDir _ _ = _ |- _ => rewrite K
         | K : ReflectMode _ _ _ = _ |- _ => rewrite K
         | K : SourceMode _ _ _ _ _ = _ |- _ => rewrite K
         end.
  all: reflexivity.
Qed.

(** C10. A non-empty [-source] selects source mode whatever the non-flag
    arguments are (the run not pre-empted by [-version]): the first thing
    the run does is call [SourceMode], the count of arguments is not
    checked, [ReflectMode] is not called, and the extractor call is the
    same for any other list of arguments.  When [SourceMode] returns
    without error (and [-debug_parser] is unset) the run goes on to call
    [Generate], with the empty string as package name and [flag.Arg(1)]
    as third argument, so a stray second argument does reach the
    generator.  In both modes the third argument of [Generate] is
    [flag.Arg(1)]: the second non-flag argument when there is one, the
    empty string otherwise; in reflect mode that call is made too, with
    the locator as package name. *)
Theorem source_flag_selects_source_mode (w : World'') (c : CommandLine) :
  (showVersion c = false -> source c <> "" ->
   (exists rest,
       trace w c
         = EvSourceMode (source c) (imports c) (excludeInterfaces c)
             (auxFiles c)
             (SourceMode w (source c) (imports c) (excludeInterfaces c)
                (auxFiles c)) :: rest)
   /\ calls is_ReflectMode (trace w c) = 0
   /\ ~ In (EvLogFatal "Expected exactly two arguments") (trace w c)
   /\ (forall a,
         filter is_extractor (trace w (with_args c a))
         = filter is_extractor (trace w c))
   /\ (forall g pkg pn op fl res,
         In (EvGenerate g pkg pn op fl res) (trace w c) -> pn = "")
   /\ (forall pkg,
         SourceMode w (source c) (imports c) (excludeInterfaces c)
           (auxFiles c) = (pkg, None) ->
         debugParser c = false ->
         exists post,
           trace w c
             = EvSourceMode (source c) (imports c) (excludeInterfaces c)
                 (auxFiles c) (pkg, None)
               :: EvNewGenerator
               :: EvGenerate (zeroGenerator w) pkg "" (Arg c 1) (flags_of c)
                    (Generate w (zeroGenerator w) pkg "" (Arg c 1)
                       (flags_of c))
               :: post))
  /\ (forall g pkg pn op fl res,
        In (EvGenerate g pkg pn op fl res) (trace w c) -> op = Arg c 1)
  /\ (NArg c < 2 -> Arg c 1 = "")
  /\ (forall a0 a1 rest, args c = a0 :: a1 :: rest -> Arg c 1 = a1)
  /\ (showVersion c = false -> source c = "" -> NArg c = 2 ->
      Arg c 0 <> "." ->
      forall pkg,
        ReflectMode w (Arg c 0) (Split_byte comma (Arg c 1)) = (pkg, None) ->
        debugParser c = false ->
        exists post,
          trace w c
            = EvReflectMode (Arg c 0) (Split_byte comma (Arg c 1))
                (pkg, None)
              :: EvNewGenerator
              :: EvGenerate (zeroGenerator w) pkg (Arg c 0) (Arg c 1)
                   (flags_of c)
                   (Generate w (zeroGenerator w) pkg (Arg c 0) (Arg c 1)
                      (flags_of c))
              :: post).
Proof.
  split; [|split; [|split; [|split]]].
  - intros Hv Hs. split; [|split; [|split; [|split; [|split]]]].
    + revert Hv Hs. along_paths w c; intros Hv Hs; try congruence.
      all: eexists; cbn [app];
        match goal with
        | K : SourceMode _ _ _ _ _ = _ |- _ => rewrite K
        end; reflexivity.
    + unfold calls. rewrite ReflectMode_calls_trace.
      unfold ReflectMode_calls. rewrite Hv.
      now rewrite (proj2 (String.eqb_neq _ _) Hs).
    + revert Hv Hs. along_paths w c; intros Hv Hs; try congruence.
      all: intro Hin; members Hin; cbn in Hin; discriminate Hin.
    + intro a. rewrite !extractor_calls_trace.
      unfold ReflectMode_calls, SourceMode_calls.
      cbn [with_args showVersion source imports excludeInterfaces auxFiles].
      rewrite Hv. now rewrite (proj2 (String.eqb_neq _ _) Hs).
    + revert Hv Hs. along_paths w c; intros Hv Hs; try congruence.
      all: intros g' pkg' pn op fl res Hin; members Hin;
        first [discriminate Hin | now inversion Hin].
    + revert Hv Hs. along_paths w c; intros Hv Hs pkg' K Hd;
        try congruence.
      all: assert (pkg' = pkg) by congruence; subst pkg'.
      all: match goal with
           | G : Generate _ _ _ _ _ _ = _ |- _ => rewrite G
           end; eexists; reflexivity.
  - along_paths w c.
    all: intros g' pkg' pn op fl res Hin; members Hin;
      first [discriminate Hin | now inversion Hin].
  - unfold NArg, Arg. destruct (args c) as [|a0 [|a1 rest]]; cbn; try lia.
    all: reflexivity.
  - intros a0 a1 rest Ha. unfold Arg. now rewrite Ha.
  - along_paths w c; intros Hv Hs Hn Hdot pkg' K Hd; try congruence.
    all: assert (pkg' = pkg) by congruence; subst pkg'.
    all: match goal with
         | G : Generate _ _ _ _ _ _ = _ |- _ => rewrite G
         end; eexists; reflexivity.
Qed.

End DriverProperties.

(** * The theorems at work on concrete runs *)

(** [mockgen] alone: the usage, then death; no extractor is called. *)
Example bare_run :
  main Demo.world Demo.bare
  = ([EvStderr usageText; EvPrintDefaults;
      EvLogFatal "Expected exactly two arguments"], Halt Fatal).
Proof. reflexivity. Qed.

(** [mockgen database/sql/driver Conn,Driver] *)
Example reflect_run :
  trace Demo.world Demo.reflect_driver
  = [EvReflectMode "database/sql/driver" ["Conn"; "Driver"]
       (Some "database/sql/driver", None);
     EvNewGenerator;
     EvGenerate [] (Some "database/sql/driver") "database/sql/driver"
       "Conn,Driver" (flags_of Demo.reflect_driver)
       (["mock_database/sql/driver"], None);
     EvOutputToDestination ["mock_database/sql/driver"] "" None]
  /\ exit_status Demo.world Demo.reflect_driver = 0%Z.
Proof. split; reflexivity. Qed.

(** [mockgen -source=foo.go x stray]: the second argument reaches
    [Generate], the package name is empty. *)
Example stray_argument_reaches_Generate :
  trace Demo.world (with_args Demo.from_source ["x"; "stray"])
  = [EvSourceMode "foo.go" "x=example.com/x" "C" "a=a.go" (Some "foo", None);
     EvNewGenerator;
     EvGenerate [] (Some "foo") "" "stray" (flags_of Demo.from_source)
       (["mock_foo"], None);
     EvOutputToDestination ["mock_foo"] "mock_foo.go" None].
Proof. reflexivity. Qed.

(** C1, as stated, fails on a bare [mockgen]: [-source] is empty, yet
    [ReflectMode] is not called, and the run calls no extractor at all. *)
Lemma bare_run_calls_no_extractor :
  ~ (calls is_extractor (trace Demo.world Demo.bare) = 1)
  /\ ~ (source Demo.bare = "" ->
        calls is_ReflectMode (trace Demo.world Demo.bare) = 1
        /\ calls is_SourceMode (trace Demo.world Demo.bare) = 0).
Proof.
  split.
  - vm_compute. discriminate.
  - intro H. destruct (H eq_refl) as [H1 _]. vm_compute in H1. discriminate.
Qed.

(** [mockgen . Conn,Driver] calls [ReflectMode] alone, once;
    [mockgen -source=foo.go ...] calls [SourceMode] alone, once. *)
Lemma one_extractor_at_most_witness :
  calls is_extractor (trace Demo.world Demo.reflect_here) = 1
  /\ calls is_ReflectMode (trace Demo.world Demo.reflect_here) = 1
  /\ calls is_SourceMode (trace Demo.world Demo.reflect_here) = 0
  /\ calls is_SourceMode (trace Demo.world Demo.from_source) = 1
  /\ calls is_ReflectMode (trace Demo.world Demo.from_source) = 0.
Proof.
  destruct (one_extractor_at_most Demo.world Demo.reflect_here)
    as (_ & _ & R & _).
  destruct (R eq_refl) as [R0 R1].
  destruct (one_extractor_at_most Demo.world Demo.from_source)
    as (_ & S & _ & _).
  destruct (S ltac:(discriminate)) as [S0 S1].
  assert (R2 : calls is_ReflectMode (trace Demo.world Demo.reflect_here) = 1).
  { apply R1. split; [reflexivity|]. split; [reflexivity|].
    intros _. exists "/home/u/proj", "example.com/proj".
    split; reflexivity. }
  exact (conj eq_refl (conj R2 (conj R0 (conj (S1 eq_refl) S0)))).
Defined.

(** [mockgen -source=foo.go -debug_parser] extracts, dumps and stops;
    with a source file that does not exist it dies without a dump. *)
Lemma debug_parser_dumps_only_witness :
  debugParser Demo.debug_source = true
  /\ trace Demo.world Demo.debug_source
     = [EvSourceMode "foo.go" "" "" "" (Some "foo", None);
        EvPrint (Some "foo")]
  /\ calls is_Generate (trace Demo.world Demo.debug_source) = 0
  /\ calls is_Output (trace Demo.world Demo.debug_source) = 0
  /\ calls is_Print (trace Demo.world Demo.debug_missing) = 0
  /\ exit_status Demo.world Demo.debug_missing = 1%Z.
Proof.
  destruct (debug_parser_dumps_only Demo.world Demo.debug_source eq_refl)
    as (_ & G & O & _ & _ & _ & S).
  destruct (debug_parser_dumps_only Demo.world Demo.debug_missing eq_refl)
    as (_ & _ & _ & _ & E & _).
  destruct (E (EvSourceMode "nope.go" "" "" ""
                 (None, Some "open nope.go: no such file"))
              None "open nope.go: no such file") as (_ & _ & P & X);
    [now left | reflexivity |].
  refine (conj eq_refl (conj _ (conj G (conj O (conj P X))))).
  apply (S eq_refl ltac:(discriminate) (Some "foo")). reflexivity.
Defined.

(** A bare [mockgen] dies; [mockgen database/sql/driver Conn,Driver]
    starts with the call of [ReflectMode] on the two symbols. *)
Lemma reflect_mode_arguments_witness :
  exit_status Demo.world Demo.bare = 1%Z
  /\ exists rest,
       trace Demo.world Demo.reflect_driver
       = (EvReflectMode "database/sql/driver" ["Conn"; "Driver"]
            (Some "database/sql/driver", None) : DemoEvent) :: rest.
Proof.
  destruct (reflect_mode_arguments Demo.world Demo.bare eq_refl eq_refl)
    as [B _].
  destruct (B ltac:(discriminate)) as (_ & B1 & _).
  destruct (reflect_mode_arguments Demo.world Demo.reflect_driver
              eq_refl eq_refl) as [_ D].
  destruct (D "database/sql/driver" "Conn,Driver" eq_refl) as (_ & D1 & _).
  split; [exact B1|]. apply D1. discriminate.
Defined.

(** Three failing runs: reflection fails on [broken], the generator
    rejects [bad], the destination cannot be written. *)
Lemma failure_is_fatal_witness :
  exit_status Demo.world (with_args Demo.bare ["broken"; "Conn"]) = 1%Z
  /\ calls is_Generate
       (trace Demo.world (with_args Demo.bare ["broken"; "Conn"])) = 0
  /\ calls is_Output
       (trace Demo.world (with_args Demo.bare ["bad"; "Conn"])) = 0
  /\ exit_status (Demo.world_at ("/home/u/proj", None) (Some "disk full"))
       Demo.reflect_driver = 1%Z.
Proof.
  destruct (failure_is_fatal Demo.world
              (with_args Demo.bare ["broken"; "Conn"]))
    as (F & _ & _ & X & _).
  destruct (X (EvReflectMode "broken" ["Conn"] (None, Some "exit status 1"))
              None "exit status 1") as (_ & X1 & _);
    [now left | reflexivity |].
  destruct (failure_is_fatal Demo.world (with_args Demo.bare ["bad"; "Conn"]))
    as (_ & _ & _ & _ & G & _).
  destruct (failure_is_fatal
              (Demo.world_at ("/home/u/proj", None) (Some "disk full"))
              Demo.reflect_driver) as (O & _).
  refine (conj _ (conj _ (conj _ _))).
  - apply (F (EvReflectMode "broken" ["Conn"] (None, Some "exit status 1"))
             "exit status 1"); [now left | reflexivity].
  - exact X1.
  - apply (G [] (Some "bad") "bad" "Conn"
             (flags_of (with_args Demo.bare ["bad"; "Conn"])) []
             "duplicate mock name").
    vm_compute. auto.
  - apply (O (EvOutputToDestination ["mock_database/sql/driver"] ""
                (Some "disk full")) "disk full");
      [vm_compute; auto | reflexivity].
Defined.

(** The four flags of [Demo.from_source] reach [SourceMode] in order. *)
Lemma source_mode_arguments_witness :
  exists rest,
    trace Demo.world Demo.from_source
    = (EvSourceMode "foo.go" "x=example.com/x" "C" "a=a.go"
         (Some "foo", None) : DemoEvent) :: rest.
Proof.
  destruct (source_mode_arguments Demo.world Demo.from_source)
    as (_ & S & _).
  exact (S eq_refl ltac:(discriminate)).
Defined.

(** Every flag of [Demo.from_source] is found in the [Flags] given to
    [Generate]. *)
Lemma flags_conveyed_witness :
  PackageOut (flags_of Demo.from_source) = "mocks"
  /\ SelfPackage (flags_of Demo.from_source) = "example.com/foo"
  /\ MockNames (flags_of Demo.from_source) = "A=FakeA"
  /\ Typed (flags_of Demo.from_source) = true
  /\ WriteCmdComment (flags_of Demo.from_source) = false
  /\ WritePkgComment (flags_of Demo.from_source) = false
  /\ WriteSourceComment (flags_of Demo.from_source) = false
  /\ WriteGenerateDirective (flags_of Demo.from_source) = true
  /\ CopyrightFile (flags_of Demo.from_source) = "LICENSE"
  /\ Source (flags_of Demo.from_source) = "foo.go"
  /\ Destination (flags_of Demo.from_source) = "mock_foo.go"
  /\ Imports (flags_of Demo.from_source) = "x=example.com/x"
  /\ AuxFiles (flags_of Demo.from_source) = "a=a.go"
  /\ ExcludeInterfaces (flags_of Demo.from_source) = "C".
Proof.
  apply (flags_conveyed Demo.world Demo.from_source
           [] (Some "foo") "" "" (flags_of Demo.from_source)
           (["mock_foo"], None)).
  vm_compute. auto.
Defined.

(** [Demo.from_source] runs to the end of [main]. *)
Lemma successful_run_lifecycle_witness :
  snd (main Demo.world Demo.from_source) = Val tt
  /\ exists x pkg pn g pre,
       trace Demo.world Demo.from_source
       = pre ++ [x;
                 EvNewGenerator;
                 EvGenerate [] pkg pn "" (flags_of Demo.from_source)
                   (g, None);
                 EvOutputToDestination g "mock_foo.go" None]
       /\ extractor_result x = Some (pkg, None).
Proof.
  split; [reflexivity|].
  destruct (successful_run_lifecycle Demo.world Demo.from_source eq_refl)
    as (x & pkg & pn & g & pre & T & X & _).
  exists x, pkg, pn, g, pre. split; [exact T | exact X].
Defined.

(** [mockgen -version], with or without arguments. *)
Lemma version_preempts_witness :
  showVersion Demo.asks_version = true
  /\ trace Demo.world Demo.asks_version = [EvPrintModuleVersion]
  /\ exit_status Demo.world Demo.asks_version = 0%Z
  /\ calls is_extractor
       (trace Demo.world (with_args Demo.asks_version ["io"; "Reader"])) = 0.
Proof.
  destruct (version_preempts Demo.world Demo.asks_version eq_refl)
    as (_ & _ & T & _ & S & _).
  destruct (version_preempts Demo.world
              (with_args Demo.asks_version ["io"; "Reader"]) eq_refl)
    as (_ & _ & _ & _ & _ & X & _).
  exact (conj eq_refl (conj (T eq_refl) (conj S X))).
Defined.

(** [mockgen . Conn,Driver] where the directory resolves, where
    [os.Getwd] fails, and where the directory holds no package. *)
Lemma dot_locator_resolved_witness :
  args Demo.reflect_here = ["."; "Conn,Driver"]
  /\ (exists rest,
        trace Demo.world Demo.reflect_here
        = (EvGetwd ("/home/u/proj", None) : DemoEvent)
          :: EvPackageNameOfDir "/home/u/proj" ("example.com/proj", None)
          :: EvReflectMode "example.com/proj" ["Conn"; "Driver"]
               (Some "example.com/proj", None)
          :: rest)
  /\ exit_status (Demo.world_at ("", Some "getwd: no such directory") None)
       Demo.reflect_here = 1%Z
  /\ exit_status (Demo.world_at ("/tmp", None) None) Demo.reflect_here = 1%Z.
Proof.
  destruct (dot_locator_resolved Demo.world Demo.reflect_here "Conn,Driver"
              eq_refl eq_refl eq_refl) as (R & _).
  destruct (dot_locator_resolved
              (Demo.world_at ("", Some "getwd: no such directory") None)
              Demo.reflect_here "Conn,Driver" eq_refl eq_refl eq_refl)
    as (_ & _ & _ & G & _).
  destruct (dot_locator_resolved (Demo.world_at ("/tmp", None) None)
              Demo.reflect_here "Conn,Driver" eq_refl eq_refl eq_refl)
    as (_ & _ & _ & _ & P).
  refine (conj eq_refl (conj _ (conj _ _))).
  - exact (R "/home/u/proj" "example.com/proj" eq_refl eq_refl).
  - exact (proj1 (proj2 (G "" "getwd: no such directory" eq_refl))).
  - exact (proj1 (proj2 (P "/tmp" "" "go source file not found"
                           eq_refl eq_refl))).
Defined.

(** [mockgen -source=foo.go ... x stray] stays in source mode, and
    [stray] reaches [Generate]; in [mockgen database/sql/driver
    Conn,Driver] the symbol list does. *)
Lemma source_flag_selects_source_mode_witness :
  calls is_ReflectMode
    (trace Demo.world (with_args Demo.from_source ["x"; "stray"])) = 0
  /\ In (EvGenerate [] (Some "foo") "" "stray" (flags_of Demo.from_source)
           (["mock_foo"], None) : DemoEvent)
        (trace Demo.world (with_args Demo.from_source ["x"; "stray"]))
  /\ (forall g pkg pn op fl res,
        In (EvGenerate g pkg pn op fl res)
           (trace Demo.world (with_args Demo.from_source ["x"; "stray"])) ->
        pn = "" /\ op = "stray")
  /\ In (EvGenerate [] (Some "database/sql/driver") "database/sql/driver"
           "Conn,Driver" (flags_of Demo.reflect_driver)
           (["mock_database/sql/driver"], None) : DemoEvent)
        (trace Demo.world Demo.reflect_driver).
Proof.
  destruct (source_flag_selects_source_mode Demo.world
              (with_args Demo.from_source ["x"; "stray"]))
    as (S & O & _).
  destruct (S eq_refl ltac:(discriminate)) as (_ & R & _ & _ & N & G).
  destruct (G (Some "foo") eq_refl eq_refl) as (post & T).
  destruct (source_flag_selects_source_mode Demo.world Demo.reflect_driver)
    as (_ & _ & _ & _ & D).
  destruct (D eq_refl eq_refl eq_refl ltac:(discriminate)
              (Some "database/sql/driver") eq_refl eq_refl)
    as (post' & T').
  refine (conj R (conj _ (conj _ _))).
  - rewrite T. right. right. left. reflexivity.
  - intros g pkg pn op fl res Hin. split.
    + exact (N g pkg pn op fl res Hin).
    + exact (O g pkg pn op fl res Hin).
  - rewrite T'. right. right. left. reflexivity.
Defined.

(** * More on the three functions *)

(** Rewrites the decisions of [main] with the facts at hand. *)
Ltac decide_with_facts :=
  repeat match goal with
         | K : ?a = ?b |- context [String.eqb ?a ?b] =>
             rewrite (proj2 (String.eqb_eq a b) K)
         | K : ?a <> ?b |- context [String.eqb ?a ?b] =>
             rewrite (proj2 (String.eqb_neq a b) K)
         | K : ?a = ?b |- context [Nat.eqb ?a ?b] =>
             rewrite (proj2 (Nat.eqb_eq a b) K)
         | K : ?a <> ?b |- context [Nat.eqb ?a ?b] =>
             rewrite (proj2 (Nat.eqb_neq a b) K)
         | K : showVersion _ = _ |- _ => rewrite K
         | K : debugParser _ = _ |- _ => rewrite K
         | K : Getwd _ = _ |- _ => rewrite K
         | K : PackageNameOfDir _ _ = _ |- _ => rewrite K
         | K : ReflectMode _ _ _ = _ |- _ => rewrite K
         | K : SourceMode _ _ _ _ _ = _ |- _ => rewrite K
         | K : Generate _ _ _ _ _ _ = _ |- _ => rewrite K
         | K : OutputToDestination _ _ _ = _ |- _ => rewrite K
         end.

Section MoreProperties.

Context {Package Generator : Type}.
Abbreviation World3 := (World Package Generator).

(** The listed paths are all [main] does, and nothing else: a path of the
    relation is the run of [main]. *)
Lemma Run_main (w : World3) (c : CommandLine) t r :
  Run w c t r -> main w c = (t, r).
Proof.
  intro HR.
  destruct HR as [V NV|V NV|? V E|? ? ? ? ? ? V E F];
    [ | | inversion E; subst; clear E
        | inversion E; subst; clear E; inversion F; subst; clear F ].
  all: unfold main, printVersion, usage, call_SourceMode, call_ReflectMode,
         call_Getwd, call_PackageNameOfDir, call_Generate,
         call_OutputToDestination, new_Generator, log_Fatal, return_, when,
         emit, halt, ret, bind.
  all: fold (flags_of c).
  all: decide_with_facts; cbn [negb fst snd app]; decide_with_facts;
    cbn [negb fst snd app]; decide_with_facts; cbn [negb fst snd app];
    decide_with_facts; cbn [negb fst snd app].
  all: reflexivity.
Qed.

(** X1. Once [flag.Parse()] has returned, [main] calls [usage] in one
    situation only, the one of line 93: reflect mode without exactly two
    non-flag arguments.  From line 64 on no other failure prints the usage
    text or the flag defaults, and the source-mode branch never does; what
    [main] then writes to [os.Stderr] is always [usageText], with the
    defaults right after.  (What [flag.Parse()] prints itself for a
    command line it rejects, or for [-h], comes before line 64 and is not
    part of this.) *)
Theorem usage_only_on_argument_error (w : World3) (c : CommandLine) :
  (forall text,
      In (EvStderr text) (trace w c) ->
      text = usageText
      /\ showVersion c = false /\ source c = "" /\ NArg c <> 2)
  /\ (In EvPrintDefaults (trace w c) ->
      showVersion c = false /\ source c = "" /\ NArg c <> 2)
  /\ (showVersion c = false -> source c = "" -> NArg c <> 2 ->
      exists rest,
        trace w c = EvStderr usageText :: EvPrintDefaults :: rest).
Proof.
  along_paths w c.
  all: repeat match goal with |- _ /\ _ => split end.
  all: try solve [intros; congruence].
  all: try solve [intros;
                  match goal with
                  | Hin : In _ _ |- _ =>
                      members Hin;
                      first [ discriminate Hin
                            | inversion Hin; subst; now repeat split ]
                  end].
  all: intros; eexists; reflexivity.
Qed.

(** X2. The working directory is looked up only in reflect mode with two
    arguments of which the first is ["."]; source mode and any other
    locator never call [os.Getwd].  [PackageNameOfDir] is only called on
    the directory [os.Getwd] returned without error, right after it. *)
Theorem working_directory_only_for_dot (w : World3) (c : CommandLine) :
  (forall res,
      In (EvGetwd res) (trace w c) ->
      res = Getwd w
      /\ showVersion c = false /\ source c = "" /\ NArg c = 2
      /\ Arg c 0 = ".")
  /\ (forall dir res,
        In (EvPackageNameOfDir dir res) (trace w c) ->
        Getwd w = (dir, None)
        /\ res = PackageNameOfDir w dir
        /\ exists rest,
             trace w c
               = EvGetwd (dir, None) :: EvPackageNameOfDir dir res :: rest)
  /\ (Arg c 0 <> "." -> forall res, ~ In (EvGetwd res) (trace w c))
  /\ (source c <> "" -> forall res, ~ In (EvGetwd res) (trace w c)).
Proof.
  along_paths w c.
  all: repeat match goal with |- _ /\ _ => split end.
  all: unfold not; intros;
    match goal with
    | Hin : In _ _ |- _ =>
        members Hin;
        first [ discriminate Hin
              | congruence
              | inversion Hin; subst; repeat split;
                first [ congruence | eexists; reflexivity ] ]
    end.
Qed.

(** The last event of a trace that is given by its end. *)
Lemma last_event (t pre : list (Event Package Generator)) x d :
  t = pre ++ [x] -> last t d = x.
Proof. intros ->. apply last_last. Qed.

(** X3. Of the runs that get past [flag.Parse()] and whose calls all
    return: [main] comes to a normal end (status 0) in exactly three
    ways: [-version] was given; or [-debug_parser] was given and the last
    thing done is the dump of the package; or the last thing done is a
    call of [OutputToDestination], on the [-destination] value, that
    returned no error.  It ends through [log.Fatal] (status 1) exactly
    when [log.Fatal] is the last thing done. *)
Theorem exit_status_by_last_event (w : World3) (c : CommandLine) :
  (exit_status w c = 0%Z <->
   showVersion c = true
   \/ (debugParser c = true
       /\ exists pkg pre, trace w c = pre ++ [EvPrint pkg])
   \/ (exists g pre,
         trace w c = pre ++ [EvOutputToDestination g (destination c) None]))
  /\ (exit_status w c = 1%Z <->
      exists msg pre, trace w c = pre ++ [EvLogFatal msg]).
Proof.
  along_paths w c.
  all: cbn [status app].
  all: split; [split; intro Hq | split; intro Hq].
  all: try solve [auto | discriminate Hq | now left | now right].
  all: try solve [left; assumption].
  all: try solve [eexists; prefix_only].
  all: try solve [right; left; split; [assumption | eexists; prefix_only]].
  all: try solve [right; right; eexists; prefix_only].
  all: try solve [exfalso;
                  destruct Hq as [Hq|[(_ & ? & ? & Hq)|(? & ? & Hq)]];
                  [ congruence
                  | apply (last_event _ _ _ EvNewGenerator) in Hq;
                    cbn [last] in Hq; discriminate Hq
                  | apply (last_event _ _ _ EvNewGenerator) in Hq;
                    cbn [last] in Hq; discriminate Hq ]].
  all: try solve [exfalso; destruct Hq as (? & ? & Hq);
                  apply (last_event _ _ _ EvNewGenerator) in Hq;
                  cbn [last] in Hq; discriminate Hq].
  all: eexists; eexists [_; _; _; _; _; _]; reflexivity.
Qed.

(** X4. The symbol list [ReflectMode] receives is the second argument cut
    at its commas and nothing else: it is never empty, has one entry more
    than the argument has commas, no entry holds a comma, and the entries
    joined by commas give the argument back.  So an empty second argument
    is passed on as the one empty name, and a leading, trailing or doubled
    comma as an empty name in that place; nothing is trimmed or
    dropped. *)
Theorem symbol_list_shape (w : World3) (c : CommandLine) p l res :
  In (EvReflectMode p l res) (trace w c) ->
  l <> []
  /\ length l = S (count_byte comma (Arg c 1))
  /\ (forall s, In s l -> count_byte comma s = 0)
  /\ Join_byte comma l = Arg c 1
  /\ (Arg c 1 = "" -> l = [""])
  /\ (count_byte comma (Arg c 1) = 0 -> l = [Arg c 1]).
Proof.
  intro Hin.
  assert (L : l = Split_byte comma (Arg c 1)).
  { revert Hin. along_paths w c; intro Hin; members Hin;
      first [discriminate Hin | now inversion Hin]. }
  subst l. clear Hin.
  split; [apply Split_byte_nonempty|].
  split; [apply Split_byte_length|].
  split; [intros s; apply Split_byte_pieces|].
  split; [apply Join_Split_byte|].
  split; [now intros ->|].
  intro Z.
  pose proof (Split_byte_length comma (Arg c 1)) as Len.
  pose proof (Join_Split_byte comma (Arg c 1)) as J.
  rewrite Z in Len.
  destruct (Split_byte comma (Arg c 1)) as [|s [|s' rest]];
    try discriminate Len.
  cbn in J. now rewrite J.
Qed.

Ltac named_failure n :=
  solve [eexists; eexists;
         split; [cbn [In app]; member_at n | split; reflexivity]].

(** X5. Every failure is reported with its own text: a call that comes
    back with an error is followed, as the last thing the run does, by
    [log.Fatalf] with the text of that step followed by the error's own
    text.  And every text [log.Fatal] is given is of that kind, except for
    the fixed complaint about the count of arguments; once [log.Fatal] is
    reached nothing follows it. *)
Theorem failure_message (w : World3) (c : CommandLine) :
  (forall x e,
      In x (trace w c) -> event_error x = Some e ->
      exists pre,
        trace w c = pre ++ [x; EvLogFatal (failure_prefix x +++ e)])
  /\ (forall msg,
        In (EvLogFatal msg) (trace w c) ->
        (exists pre,
            trace w c = pre ++ [EvLogFatal msg]
            /\ calls is_LogFatal pre = 0)
        /\ (msg = "Expected exactly two arguments"
            \/ exists x e,
                 In x (trace w c) /\ event_error x = Some e
                 /\ msg = failure_prefix x +++ e)).
Proof.
  along_paths w c.
  all: split.
  all: intros;
    match goal with
    | Hin : In _ _ |- _ => members Hin
    end.
  all: try match goal with
           | Hin : _ = EvLogFatal _ |- _ =>
               first [discriminate Hin | inversion Hin; subst; clear Hin]
           end.
  all: try (subst;
            match goal with
            | K : event_error _ = Some _ |- _ =>
                cbn [event_error] in K;
                first [discriminate K | inversion K; subst; clear K]
            end).
  all: try solve [prefix_only].
  all: try solve [eexists [_; _; _; _; _]; reflexivity].
  all: split.
  all: try solve [ prefix_of ltac:(reflexivity)
                 | eexists [_; _; _; _; _]; split; reflexivity
                 | eexists [_; _; _; _; _; _]; split; reflexivity ].
  all: first [ left; reflexivity | right ].
  all: first [ named_failure 0 | named_failure 1 | named_failure 2
             | named_failure 3 | named_failure 4 | named_failure 5 ].
Qed.

(** X6. [Generate] is only ever called on the generator just
    constructed, and the package name it is given is the locator
    [ReflectMode] was called with in this run (for ["."], the resolved
    name), or the empty string in source mode.  [OutputToDestination] is
    only ever called with the value of [-destination]. *)
Theorem generator_calls (w : World3) (c : CommandLine) :
  (forall g pkg pn a1 fl res,
      In (EvGenerate g pkg pn a1 fl res) (trace w c) ->
      g = zeroGenerator w
      /\ res = Generate w g pkg pn a1 fl
      /\ debugParser c = false
      /\ ((source c <> "" /\ pn = "")
          \/ (source c = ""
              /\ exists l, In (EvReflectMode pn l (pkg, None)) (trace w c)))
      /\ exists pre post,
           trace w c
             = pre ++ EvNewGenerator :: EvGenerate g pkg pn a1 fl res :: post)
  /\ (forall g dest res,
        In (EvOutputToDestination g dest res) (trace w c) ->
        dest = destination c /\ res = OutputToDestination w g dest).
Proof.
  along_paths w c.
  all: split.
  all: intros;
    match goal with
    | Hin : In _ _ |- _ =>
        members Hin;
        first [discriminate Hin | inversion Hin; subst; clear Hin]
    end.
  all: try solve [split; congruence].
  all: split; [reflexivity|]; split; [congruence|]; split; [assumption|].
  all: split.
  all: try solve [left; now split].
  all: try solve [right; split; [assumption|];
                  eexists; cbn [In app]; eauto 6].
  all: eexists; first [ solve [exists (@nil _); reflexivity]
                      | solve [eexists [_]; reflexivity]
                      | solve [eexists [_; _]; reflexivity]
                      | solve [eexists [_; _; _]; reflexivity] ].
Qed.

(** X7. With [-debug_parser], what the run does is decided by
    [-version], [-source], [-imports], [-exclude_interfaces], [-aux_files]
    and the non-flag arguments alone: two command lines that agree on
    these run alike, whatever [-destination], [-package], [-self_package],
    [-mock_names], [-typed], [-copyright_file] and the four [-write_...]
    flags say. *)
Theorem dump_ignores_generation_options (w : World3) (c c' : CommandLine) :
  debugParser c = true ->
  debugParser c' = true ->
  showVersion c' = showVersion c ->
  source c' = source c ->
  imports c' = imports c ->
  excludeInterfaces c' = excludeInterfaces c ->
  auxFiles c' = auxFiles c ->
  args c' = args c ->
  main w c' = main w c.
Proof.
  intros Hd Hd' Hv Hs Hi He Ha Hg.
  rewrite (surjective_pairing (main w c)). apply Run_main.
  generalize (main_Run w c).
  generalize (fst (main w c)), (snd (main w c)). intros t r HR.
  assert (A : forall i, Arg c i = Arg c' i)
    by (intro i; unfold Arg; now rewrite Hg).
  assert (N : NArg c = NArg c') by (unfold NArg; now rewrite Hg).
  destruct HR as [V NV|V NV|? V E|? ? ? ? ? ? V E F];
    [ | | inversion E; subst; clear E
        | inversion E; subst; clear E; inversion F; subst; clear F ].
  all: try congruence.
  all: rewrite ?A, ?N in *; rewrite <- ?Hs, <- ?Hi, <- ?He, <- ?Ha in *;
    rewrite <- Hv in V.
  all: try solve [ now apply Run_version | now apply Run_module_version ].
  all: try (apply Run_not_extracted;
            [assumption | solve [econstructor; eassumption]]).
  all: eapply Run_split;
    [ assumption
    | solve [econstructor; eassumption]
    | solve [econstructor; eassumption]
    | reflexivity ].
Qed.

(** X8. In source mode the non-flag arguments matter through the second
    one only: with a non-empty [-source], any list of arguments with the
    same second entry (none counting as the empty string) gives the same
    run.  Any number of arguments is accepted, and the first is never
    looked at. *)
Theorem source_mode_reads_second_argument_only
  (w : World3) (c : CommandLine) (a : list string) :
  source c <> "" ->
  nth 1 a "" = Arg c 1 ->
  main w (with_args c a) = main w c.
Proof.
  intros Hs Ha.
  rewrite (surjective_pairing (main w c)). apply Run_main.
  generalize (main_Run w c).
  generalize (fst (main w c)), (snd (main w c)). intros t r HR.
  destruct HR as [V NV|V NV|? V E|? ? ? ? ? ? V E F];
    [ | | inversion E; subst; clear E
        | inversion E; subst; clear E; inversion F; subst; clear F ].
  all: try congruence.
  all: try solve [ now apply Run_version | now apply Run_module_version ].
  all: rewrite <- ?Ha in *.
  all: eapply Run_split;
    [ exact V
    | solve [apply Ex_source; [exact Hs | eassumption]]
    | solve [econstructor; eassumption]
    | reflexivity ].
Qed.

(** Cutting at the first separator. *)
Lemma Split_byte_first (sep : ascii) (a b : string) :
  count_byte sep a = 0 ->
  Split_byte sep (a +++ String sep b) = a :: Split_byte sep b.
Proof.
  induction a as [|ch a IH]; cbn [append count_byte Split_byte]; intro Z.
  - now rewrite Ascii.eqb_refl.
  - destruct (Ascii.eqb ch sep); [discriminate Z|].
    now rewrite (IH Z).
Qed.

Lemma append_assoc (a b c : string) : (a +++ b) +++ c = a +++ (b +++ c).
Proof. induction a as [|ch a IH]; cbn [append]; [reflexivity|now rewrite IH]. Qed.

Lemma count_byte_append (sep : ascii) (a b : string) :
  count_byte sep (a +++ b) = count_byte sep a + count_byte sep b.
Proof.
  induction a as [|ch a IH]; cbn [append count_byte]; [reflexivity|].
  rewrite IH. apply Nat.add_assoc.
Qed.

(** Cutting a text at the end of its first line. *)
Lemma Split_byte_line (label value rest : string) :
  count_byte newline label = 0 ->
  count_byte newline value = 0 ->
  Split_byte newline (label +++ value +++ nl +++ rest)
  = (label +++ value) :: Split_byte newline rest.
Proof.
  intros Zl Zv. rewrite <- append_assoc.
  change (nl +++ rest) with (String newline rest).
  apply Split_byte_first. rewrite count_byte_append, Zl, Zv. reflexivity.
Qed.

(** X9. [printVersion] prints one of two things, never both.  When a
    version is linked in, it prints exactly three lines, each ended by a
    newline: the version after a [v], the commit after [Commit: ], the
    date after [Date: ] (for values that hold no newline themselves).
    When none is linked in, as in the source, it leaves the job to
    [PrintModuleVersion] and prints neither commit nor date. *)
Theorem printVersion_lines (w : World3) :
  (version w = "" -> printVersion w = ([EvPrintModuleVersion], Val tt))
  /\ (version w <> "" ->
      count_byte newline (version w) = 0 ->
      count_byte newline (commit w) = 0 ->
      count_byte newline (date w) = 0 ->
      exists text,
        printVersion w = ([EvPrintf text], Val tt)
        /\ Split_byte newline text
           = ["v" +++ version w;
              "Commit: " +++ commit w;
              "Date: " +++ date w;
              ""]).
Proof.
  unfold printVersion. split.
  - now intros ->.
  - intros NV Zv Zc Zd.
    rewrite (proj2 (String.eqb_neq _ _) NV). cbn [negb emit].
    eexists. split; [reflexivity|].
    rewrite (Split_byte_line "v" (version w)) by (reflexivity || assumption).
    rewrite (Split_byte_line "Commit: " (commit w))
      by (reflexivity || assumption).
    replace nl with (nl +++ "") by reflexivity.
    rewrite (Split_byte_line "Date: " (date w))
      by (reflexivity || assumption).
    reflexivity.
Qed.

(** X10. Each step that succeeds is followed by the next one.  After an
    extractor returned without error (and without [-debug_parser]) the run
    constructs the generator and calls [Generate] with the package as
    returned: [main] never looks at the package itself, so a nil package
    with a nil error is passed on like any other.  After [Generate]
    returned without error the run calls [OutputToDestination] on the
    generator it left. *)
Theorem pipeline_progress (w : World3) (c : CommandLine) :
  (forall x pkg,
      In x (trace w c) -> extractor_result x = Some (pkg, None) ->
      debugParser c = false ->
      exists pn post pre,
        trace w c
          = pre ++ x :: EvNewGenerator
                :: EvGenerate (zeroGenerator w) pkg pn (Arg c 1) (flags_of c)
                     (Generate w (zeroGenerator w) pkg pn (Arg c 1)
                        (flags_of c))
                :: post)
  /\ (forall g0 pkg pn a1 fl g,
        In (EvGenerate g0 pkg pn a1 fl (g, None)) (trace w c) ->
        exists post pre,
          trace w c
            = pre ++ EvGenerate g0 pkg pn a1 fl (g, None)
                  :: EvOutputToDestination g (destination c)
                       (OutputToDestination w g (destination c))
                  :: post).
Proof.
  along_paths w c.
  all: split.
  all: intros;
    match goal with
    | Hin : In _ _ |- _ => members Hin
    end.
  all: try match goal with
           | Hin : _ = EvGenerate _ _ _ _ _ _ |- _ =>
               first [discriminate Hin | inversion Hin; subst; clear Hin]
           end.
  all: try (subst;
            match goal with
            | K : extractor_result _ = Some _ |- _ =>
                cbn [extractor_result] in K;
                first [discriminate K | inversion K; subst; clear K]
            end).
  all: try congruence.
  all: decide_with_facts.
  all: cbn [app].
  all: first [ solve [match goal with
                      | K : Generate _ _ _ ?pn _ _ = _ |- _ =>
                          exists pn; rewrite K
                      end; eexists; prefix_only]
             | solve [eexists; prefix_only] ].
Qed.

End MoreProperties.

(** * These properties on concrete runs *)

(** A bare [mockgen] gets the usage; [mockgen -source=nope.go], which
    fails too, does not. *)
Lemma usage_only_on_argument_error_witness :
  (exists rest,
      trace Demo.world Demo.bare
      = (EvStderr usageText : DemoEvent) :: EvPrintDefaults :: rest)
  /\ ~ In (EvPrintDefaults : DemoEvent)
          (trace Demo.world Demo.debug_missing).
Proof.
  destruct (usage_only_on_argument_error Demo.world Demo.bare)
    as (_ & _ & U).
  destruct (usage_only_on_argument_error Demo.world Demo.debug_missing)
    as (_ & D & _).
  split.
  - exact (U eq_refl eq_refl ltac:(discriminate)).
  - intro Hin. destruct (D Hin) as (_ & S & _). discriminate S.
Defined.

(** [mockgen . Conn,Driver] asks for the directory; with another locator
    the run does not. *)
Lemma working_directory_only_for_dot_witness :
  In (EvGetwd ("/home/u/proj", None) : DemoEvent)
     (trace Demo.world Demo.reflect_here)
  /\ Arg Demo.reflect_here 0 = "."
  /\ forall res,
       ~ In (EvGetwd res : DemoEvent) (trace Demo.world Demo.reflect_driver).
Proof.
  assert (G : In (EvGetwd ("/home/u/proj", None) : DemoEvent)
                 (trace Demo.world Demo.reflect_here)) by (now left).
  destruct (working_directory_only_for_dot Demo.world Demo.reflect_here)
    as (H & _).
  destruct (H _ G) as (_ & _ & _ & _ & D).
  destruct (working_directory_only_for_dot Demo.world Demo.reflect_driver)
    as (_ & _ & N & _).
  exact (conj G (conj D (N ltac:(discriminate)))).
Defined.

(** The three ways to status 0, and one to status 1. *)
Lemma exit_status_by_last_event_witness :
  exit_status Demo.world Demo.asks_version = 0%Z
  /\ exit_status Demo.world Demo.debug_source = 0%Z
  /\ exit_status Demo.world Demo.from_source = 0%Z
  /\ exists msg pre,
       trace Demo.world Demo.bare = pre ++ [EvLogFatal msg : DemoEvent].
Proof.
  destruct (exit_status_by_last_event Demo.world Demo.asks_version)
    as ((_ & V) & _).
  destruct (exit_status_by_last_event Demo.world Demo.debug_source)
    as ((_ & D) & _).
  destruct (exit_status_by_last_event Demo.world Demo.from_source)
    as ((_ & S) & _).
  destruct (exit_status_by_last_event Demo.world Demo.bare)
    as (_ & (B & _)).
  refine (conj _ (conj _ (conj _ (B eq_refl)))).
  - apply V. now left.
  - apply D. right. left. split; [reflexivity|].
    exists (Some "foo"), [EvSourceMode "foo.go" "" "" "" (Some "foo", None)].
    reflexivity.
  - apply S. right. right.
    exists ["mock_foo"], (removelast (trace Demo.world Demo.from_source)).
    reflexivity.
Defined.

(** [mockgen io Reader,,Writer,] passes four names, two of them empty. *)
Lemma symbol_list_shape_witness :
  In (EvReflectMode "io" ["Reader"; ""; "Writer"; ""] (Some "io", None)
        : DemoEvent)
     (trace Demo.world Demo.reflect_gaps)
  /\ length ["Reader"; ""; "Writer"; ""]
     = S (count_byte comma (Arg Demo.reflect_gaps 1))
  /\ Join_byte comma ["Reader"; ""; "Writer"; ""] = Arg Demo.reflect_gaps 1.
Proof.
  assert (R : In (EvReflectMode "io" ["Reader"; ""; "Writer"; ""]
                    (Some "io", None) : DemoEvent)
                 (trace Demo.world Demo.reflect_gaps)) by (now left).
  destruct (symbol_list_shape Demo.world Demo.reflect_gaps _ _ _ R)
    as (_ & L & _ & J & _).
  exact (conj R (conj L J)).
Defined.

(** Reflection failing on [broken] is reported as a loading failure with
    the error's text. *)
Lemma failure_message_witness :
  exists pre,
    trace Demo.world (with_args Demo.bare ["broken"; "Conn"])
    = pre ++ [EvReflectMode "broken" ["Conn"] (None, Some "exit status 1");
              EvLogFatal "Loading input failed: exit status 1"].
Proof.
  destruct (failure_message Demo.world (with_args Demo.bare ["broken"; "Conn"]))
    as (F & _).
  apply (F (EvReflectMode "broken" ["Conn"] (None, Some "exit status 1"))
           "exit status 1"); [now left | reflexivity].
Defined.

(** In [mockgen . Conn,Driver] the generator gets the resolved name. *)
Lemma generator_calls_witness :
  (exists l,
      In (EvReflectMode "example.com/proj" l (Some "example.com/proj", None)
            : DemoEvent)
         (trace Demo.world Demo.reflect_here))
  /\ forall g dest res,
       In (EvOutputToDestination g dest res)
          (trace Demo.world Demo.from_source) ->
       dest = "mock_foo.go".
Proof.
  destruct (generator_calls Demo.world Demo.reflect_here) as (G & _).
  destruct (generator_calls Demo.world Demo.from_source) as (_ & O).
  split.
  - destruct (G [] (Some "example.com/proj") "example.com/proj" "Conn,Driver"
                (flags_of Demo.reflect_here) (["mock_example.com/proj"], None))
      as (_ & _ & _ & [[S _]|[_ R]] & _).
    + vm_compute. auto 6.
    + now destruct S.
    + exact R.
  - intros g dest res Hin. exact (proj1 (O g dest res Hin)).
Defined.

(** The loud and the quiet dump of [foo.go] are the same run. *)
Lemma dump_ignores_generation_options_witness :
  main Demo.world Demo.debug_source_loud = main Demo.world Demo.debug_source.
Proof.
  apply dump_ignores_generation_options; reflexivity.
Defined.

(** [mockgen -source=foo.go ... x] runs as without the argument. *)
Lemma source_mode_reads_second_argument_only_witness :
  main Demo.world (with_args Demo.from_source ["x"])
  = main Demo.world Demo.from_source.
Proof.
  apply source_mode_reads_second_argument_only;
    [discriminate | reflexivity].
Defined.

(** What [mockgen -version] of a released binary prints. *)
Lemma printVersion_lines_witness :
  exists text,
    printVersion Demo.released = ([EvPrintf text : DemoEvent], Val tt)
    /\ Split_byte newline text
       = ["v0.4.0"; "Commit: 5b455625"; "Date: 2023-11-10"; ""].
Proof.
  destruct (printVersion_lines Demo.released) as (_ & P).
  exact (P ltac:(discriminate) eq_refl eq_refl eq_refl).
Defined.

(** A nil package that comes without error goes to [Generate] as it is. *)
Lemma pipeline_progress_witness :
  exists pn post pre,
    trace Demo.hollow Demo.from_source
    = pre ++ (EvSourceMode "foo.go" "x=example.com/x" "C" "a=a.go"
                (None, None) : DemoEvent)
          :: EvNewGenerator
          :: EvGenerate [] None pn "" (flags_of Demo.from_source)
               ([], Some "nil package")
          :: post.
Proof.
  destruct (pipeline_progress Demo.hollow Demo.from_source) as (P & _).
  apply (P (EvSourceMode "foo.go" "x=example.com/x" "C" "a=a.go"
              (None, None)) None); [now left | reflexivity | reflexivity].
Defined.
